(** * OLO-Backend: shift lifecycle and timesheet billing engine

    A shallow embedding of the services in
    [services/shiftRequest.service.ts] (src/unnamed/part_004),
    [services/timesheets.service.ts] (src/unnamed/part_003) and
    [utils/time-money.ts], together with the properties of the
    specification that concern them.

    Conventions of the embedding.
    - A JavaScript [Date] is its time value: milliseconds since the epoch,
      UTC, as a [Z]; the Date built-ins follow ECMA-262 (sec. 21.4.1).
      [None] stands for the time value NaN (an Invalid Date).
    - Mongoose documents are plain records: what the service assigns to a
      document is what the record holds.  The bookkeeping that the ODM
      keeps on its own ([createdAt], [updatedAt], [__v]) is not modelled.
    - JavaScript numbers are exact: integers as [Z], other numbers as [Q].
      NaN and the infinities are outside the model.
    - A thrown exception is a value of type [Exn]; every service runs in a
      state-and-exception monad over the collections of the database. *)

From Stdlib Require Import ZArith QArith Qround List Ascii String Bool Lia Lqa Arith.
Import ListNotations.
Local Open Scope Z_scope.

(* ================================================================== *)
(** * The Date built-ins of ECMA-262 used by the services              *)
(* ================================================================== *)

Module JsDate.

Definition msPerDay : Z := 86400000.
Definition msPerHour : Z := 3600000.
Definition msPerMinute : Z := 60000.
Definition msPerSecond : Z := 1000.

(** The largest magnitude of a time value (TimeClip). *)
Definition maxTime : Z := 8640000000000000.

Definition Day (t : Z) : Z := t / msPerDay.
Definition TimeWithinDay (t : Z) : Z := t mod msPerDay.

Definition DaysInYear (y : Z) : Z :=
  if negb (y mod 4 =? 0) then 365
  else if negb (y mod 100 =? 0) then 366
  else if negb (y mod 400 =? 0) then 365
  else 366.

Definition DayFromYear (y : Z) : Z :=
  365 * (y - 1970) + (y - 1969) / 4 - (y - 1901) / 100 + (y - 1601) / 400.

Definition TimeFromYear (y : Z) : Z := msPerDay * DayFromYear y.

(** ECMA-262 specifies YearFromTime(t) as the largest [y] with
    [TimeFromYear y <= t].  The mean Gregorian year has 146097/400 days,
    which gives an estimate that is off by at most one. *)
Definition YearFromDay (d : Z) : Z :=
  let y := 1970 + (d * 400) / 146097 in
  if DayFromYear (y + 1) <=? d then y + 1
  else if DayFromYear y <=? d then y
  else y - 1.

Definition YearFromTime (t : Z) : Z := YearFromDay (Day t).

(** InLeapYear(t), as 0 or 1. *)
Definition InLeapYear (t : Z) : Z :=
  if DaysInYear (YearFromTime t) =? 366 then 1 else 0.

Definition DayWithinYear (t : Z) : Z :=
  Day t - DayFromYear (YearFromTime t).

Definition MonthFromTime (t : Z) : Z :=
  let d := DayWithinYear t in
  let l := InLeapYear t in
  if d <? 31 then 0
  else if d <? 59 + l then 1
  else if d <? 90 + l then 2
  else if d <? 120 + l then 3
  else if d <? 151 + l then 4
  else if d <? 181 + l then 5
  else if d <? 212 + l then 6
  else if d <? 243 + l then 7
  else if d <? 273 + l then 8
  else if d <? 304 + l then 9
  else if d <? 334 + l then 10
  else 11.

(** Day within the year on which month [m] (0..11) starts. *)
Definition monthStart (leap m : Z) : Z :=
  match m with
  | 0 => 0
  | 1 => 31
  | 2 => 59 + leap
  | 3 => 90 + leap
  | 4 => 120 + leap
  | 5 => 151 + leap
  | 6 => 181 + leap
  | 7 => 212 + leap
  | 8 => 243 + leap
  | 9 => 273 + leap
  | 10 => 304 + leap
  | _ => 334 + leap
  end.

Definition DateFromTime (t : Z) : Z :=
  DayWithinYear t - monthStart (InLeapYear t) (MonthFromTime t) + 1.

Definition WeekDay (t : Z) : Z := (Day t + 4) mod 7.

Definition MakeTime (hour min sec ms : Z) : Z :=
  hour * msPerHour + min * msPerMinute + sec * msPerSecond + ms.

(** MakeDay(year, month, date): the day number of the first of the month
    [month mod 12] of the year [year + floor(month / 12)], plus
    [date - 1]. *)
Definition MakeDay (year month date : Z) : Z :=
  let ym := year + month / 12 in
  let mn := month mod 12 in
  let leap := if DaysInYear ym =? 366 then 1 else 0 in
  DayFromYear ym + monthStart leap mn + date - 1.

Definition MakeDate (day time : Z) : Z := day * msPerDay + time.

Definition TimeClip (time : Z) : option Z :=
  if Z.abs time <=? maxTime then Some time else None.

(** A Date object: its time value, [None] for NaN. *)
Definition Date := option Z.

(** [Date.UTC(year, month, date)].  A year from 0 to 99 denotes
    1900 + year (ECMA-262, Date.UTC, step on [yr]). *)
Definition UTC (year month date : Z) : Date :=
  let yr := if (0 <=? year) && (year <=? 99) then 1900 + year else year in
  TimeClip (MakeDate (MakeDay yr month date) (MakeTime 0 0 0 0)).

Definition getUTCFullYear (d : Date) : option Z := option_map YearFromTime d.
Definition getUTCMonth (d : Date) : option Z := option_map MonthFromTime d.
Definition getUTCDate (d : Date) : option Z := option_map DateFromTime d.
Definition getUTCDay (d : Date) : option Z := option_map WeekDay d.

(** [d.setUTCDate(dt)], returning the new state of the object. *)
Definition setUTCDate (d : Date) (dt : option Z) : Date :=
  match d, dt with
  | Some t, Some n =>
      TimeClip (MakeDate (MakeDay (YearFromTime t) (MonthFromTime t) n)
                         (TimeWithinDay t))
  | _, _ => None
  end.

(** [d.setUTCHours(hour, min, sec, ms)]. *)
Definition setUTCHours (d : Date) (hour min sec ms : Z) : Date :=
  match d with
  | Some t => TimeClip (MakeDate (Day t) (MakeTime hour min sec ms))
  | None => None
  end.

(** Arithmetic on numbers that may be NaN. *)
Definition num2 (f : Z -> Z -> Z) (a b : option Z) : option Z :=
  match a, b with
  | Some x, Some y => Some (f x y)
  | _, _ => None
  end.

End JsDate.

Import JsDate.

(* ------------------------------------------------------------------ *)
(** ** Week buckets                                                    *)
(* ------------------------------------------------------------------ *)

(** [startOfWeekUTC] of the shift-request service (part_004, l. 787). *)
Definition startOfWeekUTC (d : Date) : Date :=
  match getUTCFullYear d, getUTCMonth d, getUTCDate d with
  | Some y, Some m, Some dt =>
      let x := UTC y m dt in
      let dow := getUTCDay x in
      let diffToMon := option_map (fun w => (w + 6) mod 7) dow in
      let x := setUTCDate x (num2 Z.sub (getUTCDate x) diffToMon) in
      setUTCHours x 0 0 0 0
  | _, _, _ => None
  end.

(** [endOfWeekUTC] (part_004, l. 797, and utils/time-money.ts, l. 10). *)
Definition endOfWeekUTC (ws : Date) : Date :=
  let x := ws in
  let x := setUTCDate x (num2 Z.add (getUTCDate x) (Some 6)) in
  setUTCHours x 23 59 59 999.

Module TimeMoney.

(** [startOfWeekUTC] of utils/time-money.ts (l. 2). *)
Definition startOfWeekUTC (d : Date) : Date :=
  match getUTCFullYear d, getUTCMonth d, getUTCDate d with
  | Some y, Some m, Some dt =>
      let dt0 := UTC y m dt in
      (* getUTCDay() || 7 : 0 and NaN are falsy *)
      let day := match getUTCDay dt0 with
                 | Some 0 | None => 7
                 | Some w => w
                 end in
      if 1 <? day
      then setUTCDate dt0 (num2 Z.sub (getUTCDate dt0) (Some (day - 1)))
      else dt0
  | _, _, _ => None
  end.

Definition endOfWeekUTC (weekStart : Date) : Date :=
  let e := weekStart in
  let e := setUTCDate e (num2 Z.add (getUTCDate e) (Some 6)) in
  setUTCHours e 23 59 59 999.

End TimeMoney.

(** The week bucket of the specification for the date [d]: a Monday
    00:00:00.000 UTC not after [d], and the Sunday 23:59:59.999 UTC six
    days later, not before [d]. *)
Definition week_bucket (sow eow : Date -> Date) (d : Z) : Prop :=
  exists ws we,
    sow (Some d) = Some ws /\ eow (Some ws) = Some we /\
    WeekDay ws = 1 /\ TimeWithinDay ws = 0 /\
    ws <= d /\
    we = ws + 6 * msPerDay + MakeTime 23 59 59 999 /\
    d <= we.

(** Day number of the Monday of the week of day [n]. *)
Definition mondayOf (n : Z) : Z := n - ((n + 4) mod 7 + 6) mod 7.

(* ================================================================== *)
(** * Data model                                                       *)
(* ================================================================== *)

(** A Mongo [ObjectId].  Only identity matters to the services. *)
Definition ObjectId := nat.
Bind Scope nat_scope with ObjectId.

(** An id as it arrives in a request: a string that either denotes an
    [ObjectId] or does not ([mongoose.isValidObjectId]). *)
Inductive IdStr :=
| BadId (raw : string)
| GoodId (o : ObjectId).

Definition isValidObjectId (i : IdStr) : bool :=
  match i with GoodId _ => true | BadId _ => false end.

(** Truthiness of an id string: only the empty string is falsy. *)
Definition truthyId (i : IdStr) : bool :=
  match i with BadId EmptyString => false | _ => true end.

Definition truthyStr (s : string) : bool :=
  match s with EmptyString => false | _ => true end.

Inductive Role := PARTICIPANT | TRAINER | ADMIN.

Inductive UserStatus := U_PENDING | U_ACTIVE | U_BLOCKED | U_DELETED.

Inductive ShiftRequestStatus :=
| PENDING_ADMIN | APPROVED | DECLINED | CANCELLED | IN_PROGRESS | COMPLETED.

Inductive ShiftStatus := S_IN_PROGRESS | S_COMPLETED | S_CANCELLED.

Inductive TimesheetStatus :=
| T_DRAFT | T_SUBMITTED | T_APPROVED | T_PAID | T_REOPENED.

Scheme Equality for Role.
Scheme Equality for UserStatus.
Scheme Equality for ShiftRequestStatus.
Scheme Equality for ShiftStatus.
Scheme Equality for TimesheetStatus.

Module User.
Record t := mk {
  _id : ObjectId;
  email : string;
  role : Role;
  status : UserStatus
}.
End User.

Module Trainer.
Record t := mk {
  _id : ObjectId;
  userId : ObjectId;
  status : string
}.
End Trainer.

Module Participant.
Record t := mk {
  _id : ObjectId;
  userId : ObjectId;
  fullName : string;
  email : string
}.
End Participant.

Module ShiftRequest.
Record t := mk {
  _id : ObjectId;
  participantId : ObjectId;
  requestedBy : ObjectId;
  service : string;
  start : Z;
  end_ : Z;
  notes : option string;
  preferredTrainerIds : list ObjectId;
  status : ShiftRequestStatus;
  assignedTrainerId : option ObjectId;
  linkedShiftId : option ObjectId;
  adminComment : option string;
  approvedBy : option ObjectId;
  approvedAt : option Z;
  declinedReason : option string
}.
End ShiftRequest.

Module Report.
Record t := mk {
  activities : string;
  progress : string;
  incidents : string;
  km : option Q
}.
End Report.

Module Billing.
Record t := mk {
  billableMinutes : Z;
  hourlyRateCents : Q;
  kmRateCents : Q;
  source : string;
  scheduledStart : Z;
  scheduledEnd : Z
}.
End Billing.

Module Shift.
Record t := mk {
  _id : ObjectId;
  shiftRequestId : ObjectId;
  participantId : ObjectId;
  trainerId : ObjectId;
  service : string;
  scheduledStart : Z;
  scheduledEnd : Z;
  scheduledDurationMinutes : Z;
  actualClockIn : Z;
  plannedClockOut : Z;
  actualClockOut : option Z;
  status : ShiftStatus;
  report : option Report.t;
  billing : option Billing.t
}.
End Shift.

(** A line of a timesheet.  The fields that the aggregator reads with a
    default ([?? 0], [typeof ... === "number"]) are optional: a legacy item
    may lack them. *)
Module Item.
Record t := mk {
  shiftId : ObjectId;
  participantId : ObjectId;
  date : Z;
  service : string;
  minutes : option Q;
  hours : option Q;
  km : option Q;
  hourlyRateCents : option Q;
  kmRateCents : option Q;
  amountCents : option Z;
  mileageCents : option Z;
  totalCents : Z
}.
End Item.

Module Totals.
Record t := mk {
  hours : Q;
  km : Q;
  amountCents : Z;
  mileageCents : Z;
  totalCents : Z
}.
End Totals.

Module Audit.
Record t := mk {
  by_ : IdStr;
  at_ : Z;
  reason : option string
}.
End Audit.

Module Timesheet.
Record t := mk {
  _id : ObjectId;
  trainerId : ObjectId;
  weekStart : Z;
  weekEnd : Z;
  status : TimesheetStatus;
  items : list Item.t;
  totals : Totals.t;
  audit : list Audit.t
}.
End Timesheet.

(** The collections of the database and the generator of fresh ids. *)
Record Store := mkStore {
  users : list User.t;
  trainers : list Trainer.t;
  participants : list Participant.t;
  shiftRequests : list ShiftRequest.t;
  shifts : list Shift.t;
  timesheets : list Timesheet.t;
  nextId : ObjectId
}.

(* ------------------------------------------------------------------ *)
(** ** Errors (utils/errors.ts, part_008) and the service monad        *)
(* ------------------------------------------------------------------ *)

(** What a service throws: an [AppError] with its HTTP status, or an
    error of the database driver (a failed cast of an id or of a date). *)
Inductive Exn :=
| AppError (message : string) (statusCode : Z)
| DriverError (name : string).

Definition NotFoundError (resource : string) : Exn :=
  AppError (resource ++ " not found") 404.

Definition statusOf (e : Exn) : option Z :=
  match e with
  | AppError _ c => Some c
  | DriverError _ => None
  end.

(** A service: it reads and writes the store, and returns or throws.
    The store is returned in both cases, since what was saved before a
    throw stays saved. *)
Definition M (A : Type) : Type := Store -> (Exn + A) * Store.

Definition ret {A} (a : A) : M A := fun s => (inr a, s).

Definition throw {A} (e : Exn) : M A := fun s => (inl e, s).

Definition bind {A B} (c : M A) (k : A -> M B) : M B :=
  fun s =>
    match c s with
    | (inr a, s') => k a s'
    | (inl e, s') => (inl e, s')
    end.

Definition gets {A} (f : Store -> A) : M A := fun s => (inr (f s), s).

Definition modify (f : Store -> Store) : M unit := fun s => (inr tt, f s).

Declare Scope svc_scope.
Delimit Scope svc_scope with svc.
Notation "x <- c ;; k" := (bind c (fun x => k))
  (at level 61, c at next level, right associativity) : svc_scope.
Notation "c ;;; k" := (bind c (fun _ => k))
  (at level 61, right associativity) : svc_scope.

(** [if (cond) throw e;] *)
Definition throwIf (cond : bool) (e : Exn) : M unit :=
  if cond then throw e else ret tt.

(** The outcome of a service. *)
Definition succeeded {A} (r : (Exn + A) * Store) : bool :=
  match fst r with inr _ => true | inl _ => false end.

Definition failsWith {A} (r : (Exn + A) * Store) (code : Z) : Prop :=
  exists msg, fst r = inl (AppError msg code).

(* ------------------------------------------------------------------ *)
(** ** Collections                                                     *)
(* ------------------------------------------------------------------ *)

Section Collections.
Context {A : Type} (idOf : A -> ObjectId).

(** [Model.findById(id)] *)
Definition findById (id : ObjectId) (l : list A) : option A :=
  find (fun d => Nat.eqb (idOf d) id) l.

(** [doc.save()] of a loaded document: the stored document with the same
    [_id] is replaced. *)
Fixpoint saveDoc (d : A) (l : list A) : list A :=
  match l with
  | [] => []
  | x :: r => if Nat.eqb (idOf x) (idOf d) then d :: r else x :: saveDoc d r
  end.

End Collections.

(** A fresh [ObjectId]. *)
Definition freshId : M ObjectId :=
  fun s => (inr (nextId s),
            mkStore (users s) (trainers s) (participants s) (shiftRequests s)
                    (shifts s) (timesheets s) (S (nextId s))).

Definition setShiftRequests (f : list ShiftRequest.t -> list ShiftRequest.t)
  (s : Store) : Store :=
  mkStore (users s) (trainers s) (participants s) (f (shiftRequests s))
          (shifts s) (timesheets s) (nextId s).

Definition setShifts (f : list Shift.t -> list Shift.t) (s : Store) : Store :=
  mkStore (users s) (trainers s) (participants s) (shiftRequests s)
          (f (shifts s)) (timesheets s) (nextId s).

Definition setTimesheets (f : list Timesheet.t -> list Timesheet.t)
  (s : Store) : Store :=
  mkStore (users s) (trainers s) (participants s) (shiftRequests s)
          (shifts s) (f (timesheets s)) (nextId s).

(* ================================================================== *)
(** * Timesheet aggregator (part_004, l. 781-996)                      *)
(* ================================================================== *)

Local Open Scope svc_scope.

(** [Math.round]: the nearest integer, a tie going up. *)
Definition Math_round (x : Q) : Z := Qfloor (x + (1 # 2)).

Definition roundCents (n : Q) : Z := Math_round n.

(** [minutesBetween(a, b)] *)
Definition minutesBetween (a b : Z) : Z :=
  Z.max 0 (Math_round (inject_Z (b - a) / inject_Z 60000)).

(** [getPricingSnapshotForShift]: the rates are fixed. *)
Definition getPricingSnapshotForShift (shift : Shift.t) : Q * Q :=
  (inject_Z 6500, inject_Z 85).

Module UpsertArgs.
Record t := mk {
  trainerId : ObjectId;
  participantId : ObjectId;
  shiftId : ObjectId;
  service : string;
  date : Z;
  minutes : Q;
  km : option Q;
  hourlyRateCents : Q;
  kmRateCents : option Q
}.
End UpsertArgs.

(** [x ?? 0] *)
Definition orQ0 (x : option Q) : Q := match x with Some q => q | None => 0%Q end.
Definition orZ0 (x : option Z) : Z := match x with Some z => z | None => 0 end.

(** The item built from the arguments (l. 927-962). *)
Definition buildItem (a : UpsertArgs.t) : Item.t :=
  let km := orQ0 (UpsertArgs.km a) in
  let kmRateCents := orQ0 (UpsertArgs.kmRateCents a) in
  let hours := (UpsertArgs.minutes a / inject_Z 60)%Q in
  let amountCents := Math_round (hours * UpsertArgs.hourlyRateCents a)%Q in
  let mileageCents := Math_round (km * kmRateCents)%Q in
  let totalCents := amountCents + mileageCents in
  Item.mk (UpsertArgs.shiftId a) (UpsertArgs.participantId a)
          (UpsertArgs.date a) (UpsertArgs.service a)
          (Some (UpsertArgs.minutes a)) (Some hours) (Some km)
          (Some (UpsertArgs.hourlyRateCents a)) (Some kmRateCents)
          (Some amountCents) (Some mileageCents) totalCents.

(** [Array.prototype.findIndex]: the first index whose element satisfies
    [p], or -1. *)
Fixpoint findIndexFrom {A} (p : A -> bool) (i : Z) (l : list A) : Z :=
  match l with
  | [] => -1
  | x :: r => if p x then i else findIndexFrom p (i + 1) r
  end.

Definition findIndex {A} (p : A -> bool) (l : list A) : Z := findIndexFrom p 0 l.

(** [l[n] = v] for an index inside the array (the only use in the
    services: the index comes from [findIndex]). *)
Fixpoint setNth {A} (n : nat) (v : A) (l : list A) : list A :=
  match l, n with
  | [], _ => []
  | _ :: r, O => v :: r
  | x :: r, S m => x :: setNth m v r
  end.

(** Replace-or-append by [shiftId] (l. 964-966). *)
Definition placeItem (item : Item.t) (items : list Item.t) : list Item.t :=
  let idx := findIndex (fun i => Nat.eqb (Item.shiftId i) (Item.shiftId item)) items in
  if 0 <=? idx then setNth (Z.to_nat idx) item items
  else items ++ [item].

(** Backfill of [hours] for legacy items (l. 969-972). *)
Definition backfillHours (i : Item.t) : Item.t :=
  Item.mk (Item.shiftId i) (Item.participantId i) (Item.date i) (Item.service i)
          (Item.minutes i)
          (match Item.hours i with
           | Some h => Some h
           | None => Some (orQ0 (Item.minutes i) / inject_Z 60)%Q
           end)
          (Item.km i) (Item.hourlyRateCents i) (Item.kmRateCents i)
          (Item.amountCents i) (Item.mileageCents i) (Item.totalCents i).

(** The accumulator of the [reduce] (l. 975-985). *)
Module Acc.
Record t := mk {
  minutes : Q;
  hours : Q;
  km : Q;
  amountCents : Z;
  mileageCents : Z
}.
End Acc.

Definition accStep (acc : Acc.t) (i : Item.t) : Acc.t :=
  Acc.mk (Acc.minutes acc + orQ0 (Item.minutes i))%Q
         (Acc.hours acc
          + match Item.hours i with
            | Some h => h
            | None => orQ0 (Item.minutes i) / inject_Z 60
            end)%Q
         (Acc.km acc + orQ0 (Item.km i))%Q
         (Acc.amountCents acc + orZ0 (Item.amountCents i))
         (Acc.mileageCents acc + orZ0 (Item.mileageCents i)).

Definition sumItems (items : list Item.t) : Acc.t :=
  fold_left accStep items (Acc.mk 0 0 0 0 0).

(** The body of [upsertTimesheetForShift] on the loaded timesheet
    (l. 949-992). *)
Definition applyUpsert (ts : Timesheet.t) (a : UpsertArgs.t) (weekEnd : Z)
  : Timesheet.t :=
  let item := buildItem a in
  let items := placeItem item (Timesheet.items ts) in
  let items := map backfillHours items in
  let sum := sumItems items in
  Timesheet.mk (Timesheet._id ts) (Timesheet.trainerId ts)
    (Timesheet.weekStart ts) weekEnd (Timesheet.status ts) items
    (Totals.mk (Acc.hours sum) (Acc.km sum) (Acc.amountCents sum)
               (Acc.mileageCents sum)
               (Acc.amountCents sum + Acc.mileageCents sum))
    (Timesheet.audit ts).

(** [Timesheet.findOneAndUpdate({trainerId, weekStart},
    {$setOnInsert: ...}, {upsert: true, new: true})] *)
Definition findOrInsertTimesheet (trainerId : ObjectId) (weekStart weekEnd : Z)
  : M Timesheet.t :=
  found <- gets (fun s =>
             find (fun t => Nat.eqb (Timesheet.trainerId t) trainerId
                            && (Timesheet.weekStart t =? weekStart))
                  (timesheets s)) ;;
  match found with
  | Some ts => ret ts
  | None =>
      id <- freshId ;;
      let ts := Timesheet.mk id trainerId weekStart weekEnd T_DRAFT []
                  (Totals.mk 0 0 0 0 0) [] in
      modify (setTimesheets (fun l => l ++ [ts])) ;;;
      ret ts
  end.

Definition upsertTimesheetForShift (a : UpsertArgs.t) : M Timesheet.t :=
  let weekStart := startOfWeekUTC (Some (UpsertArgs.date a)) in
  let weekEnd := endOfWeekUTC weekStart in
  match weekStart, weekEnd with
  | Some ws, Some we =>
      ts <- findOrInsertTimesheet (UpsertArgs.trainerId a) ws we ;;
      let ts := applyUpsert ts a we in
      modify (setTimesheets (saveDoc Timesheet._id ts)) ;;;
      ret ts
  | _, _ => throw (DriverError "CastError")
  end.

(* ================================================================== *)
(** * Timesheet workflow (part_003, l. 142-190)                        *)
(* ================================================================== *)

Definition setTimesheetStatus (st : TimesheetStatus) (ts : Timesheet.t)
  : Timesheet.t :=
  Timesheet.mk (Timesheet._id ts) (Timesheet.trainerId ts)
    (Timesheet.weekStart ts) (Timesheet.weekEnd ts) st (Timesheet.items ts)
    (Timesheet.totals ts) (Timesheet.audit ts).

Definition setTimesheetAudit (au : list Audit.t) (ts : Timesheet.t)
  : Timesheet.t :=
  Timesheet.mk (Timesheet._id ts) (Timesheet.trainerId ts)
    (Timesheet.weekStart ts) (Timesheet.weekEnd ts) (Timesheet.status ts)
    (Timesheet.items ts) (Timesheet.totals ts) au.

(** [Timesheet.findById(id)] after the [isObjectId] guard, or the
    [NotFoundError]. *)
Definition loadTimesheet (id : IdStr) : M Timesheet.t :=
  match id with
  | BadId _ => throw (AppError "Invalid id" 400)
  | GoodId o =>
      found <- gets (fun s => findById Timesheet._id o (timesheets s)) ;;
      match found with
      | None => throw (NotFoundError "Timesheet")
      | Some ts => ret ts
      end
  end.

Definition saveTimesheet (ts : Timesheet.t) : M unit :=
  modify (setTimesheets (saveDoc Timesheet._id ts)).

(** The status guard of [submitTimesheet] is commented out in the source
    (l. 156-158): the status is set whatever it was. *)
Definition submitTimesheet (id trainerUserId : IdStr) : M Timesheet.t :=
  ts <- loadTimesheet id ;;
  let ts := setTimesheetStatus T_SUBMITTED ts in
  saveTimesheet ts ;;;
  ret ts.

Definition approveTimesheet (id adminUserId : IdStr) : M Timesheet.t :=
  ts <- loadTimesheet id ;;
  throwIf (negb (existsb (TimesheetStatus_beq (Timesheet.status ts))
                         [T_SUBMITTED; T_REOPENED]))
          (AppError "Only SUBMITTED/REOPENED can be approved" 409) ;;;
  let ts := setTimesheetStatus T_APPROVED ts in
  saveTimesheet ts ;;;
  ret ts.

Definition reopenTimesheet (now : Z) (id adminUserId : IdStr)
  (reason : option string) : M Timesheet.t :=
  ts <- loadTimesheet id ;;
  throwIf (negb (existsb (TimesheetStatus_beq (Timesheet.status ts))
                         [T_SUBMITTED; T_APPROVED]))
          (AppError "Only SUBMITTED/APPROVED can be reopened" 409) ;;;
  let ts := setTimesheetStatus T_REOPENED ts in
  let ts := setTimesheetAudit
              (Timesheet.audit ts ++ [Audit.mk adminUserId now reason]) ts in
  saveTimesheet ts ;;;
  ret ts.

(* ================================================================== *)
(** * Shift requests (part_004, l. 13-116, 269-402)                    *)
(* ================================================================== *)

(** A [start] or [end] of a creation payload ([string | Date]): falsy
    (the empty string), not a date ([new Date(x)] is an Invalid Date), or
    a date. *)
Inductive DateInput :=
| DateFalsy
| DateInvalid
| DateAt (t : Z).

Definition truthyDate (d : DateInput) : bool :=
  match d with DateFalsy => false | _ => true end.

(** [new Date(x)] *)
Definition newDate (d : DateInput) : Date :=
  match d with DateAt t => Some t | _ => None end.

Module CreateShiftRequestInput.
Record t := mk {
  participantId : IdStr;
  requestedBy : IdStr;
  service : string;
  start : DateInput;
  end_ : DateInput;
  notes : option string;
  preferredTrainerIds : option (list IdStr)
}.
End CreateShiftRequestInput.

Definition MIN_MINUTES : Q := inject_Z 30.

(** [validateRequestWindow] (l. 16-36); [now] is the clock. *)
Definition validateRequestWindow (now : Z) (start end_ : Date) : M unit :=
  match start with
  | None => throw (AppError "Invalid start date/time" 400)
  | Some s =>
      match end_ with
      | None => throw (AppError "Invalid end date/time" 400)
      | Some e =>
          throwIf (e <=? s) (AppError "End time must be after start time" 400) ;;;
          throwIf (e <? now) (AppError "Cannot request a shift in the past" 400) ;;;
          throwIf (negb (Qle_bool MIN_MINUTES
                           (inject_Z (e - s) / inject_Z (1000 * 60))))
                  (AppError "Shift must be at least 30 minutes" 400)
      end
  end.

(** [User.findById(id)]: an id that does not cast makes the driver
    throw. *)
Definition User_findById (id : IdStr) : M (option User.t) :=
  match id with
  | BadId _ => throw (DriverError "CastError")
  | GoodId o => gets (fun s => findById User._id o (users s))
  end.

(** [ensureParticipantOwnership] (l. 52-67) *)
Definition ensureParticipantOwnership (participantId userId : IdStr)
  (role : option Role) : M User.t :=
  found <- User_findById participantId ;;
  match found with
  | None => throw (NotFoundError "Participant")
  | Some participant =>
      throwIf (negb (match role with Some ADMIN => true | _ => false end)
               && negb (match userId with
                        | GoodId o => Nat.eqb (User._id participant) o
                        | BadId _ => false
                        end))
              (AppError "You are not allowed to create requests for this participant" 403) ;;;
      ret participant
  end.

(** [new mongoose.Types.ObjectId(id)] *)
Definition newObjectId (id : IdStr) : M ObjectId :=
  match id with
  | GoodId o => ret o
  | BadId _ => throw (DriverError "BSONError")
  end.

Fixpoint mapM {A B} (f : A -> M B) (l : list A) : M (list B) :=
  match l with
  | [] => ret []
  | x :: r => y <- f x ;; ys <- mapM f r ;; ret (y :: ys)
  end.

Definition createShiftRequest (now : Z) (payload : CreateShiftRequestInput.t)
  (role : option Role) : M ShiftRequest.t :=
  let participantId := CreateShiftRequestInput.participantId payload in
  let requestedBy := CreateShiftRequestInput.requestedBy payload in
  let service := CreateShiftRequestInput.service payload in
  let start := CreateShiftRequestInput.start payload in
  let end_ := CreateShiftRequestInput.end_ payload in
  let preferredTrainerIds :=
    match CreateShiftRequestInput.preferredTrainerIds payload with
    | Some l => l
    | None => []
    end in
  throwIf (negb (truthyId participantId) || negb (truthyId requestedBy)
           || negb (truthyStr service) || negb (truthyDate start)
           || negb (truthyDate end_))
          (AppError "participantId, service, start and end are required" 400) ;;;
  let startDt := newDate start in
  let endDt := newDate end_ in
  validateRequestWindow now startDt endDt ;;;
  ensureParticipantOwnership participantId requestedBy role ;;;
  trainerIds <- mapM newObjectId (filter truthyId preferredTrainerIds) ;;
  pid <- newObjectId participantId ;;
  rid <- newObjectId requestedBy ;;
  id <- freshId ;;
  let created :=
    ShiftRequest.mk id pid rid service
      (match startDt with Some s => s | None => 0 end)
      (match endDt with Some e => e | None => 0 end)
      (CreateShiftRequestInput.notes payload) trainerIds PENDING_ADMIN
      None None None None None None in
  modify (setShiftRequests (fun l => l ++ [created])) ;;;
  ret created.

(** [ShiftRequest.findById(id)] or the [NotFoundError]. *)
Definition loadShiftRequest (o : ObjectId) : M ShiftRequest.t :=
  found <- gets (fun s => findById ShiftRequest._id o (shiftRequests s)) ;;
  match found with
  | None => throw (NotFoundError "ShiftRequest")
  | Some r => ret r
  end.

Definition saveShiftRequest (r : ShiftRequest.t) : M unit :=
  modify (setShiftRequests (saveDoc ShiftRequest._id r)).

(** The assignments of [approveAndAssign] (l. 321-324). *)
Definition approveFields (trainerId adminUserId : ObjectId) (now : Z)
  (r : ShiftRequest.t) : ShiftRequest.t :=
  ShiftRequest.mk (ShiftRequest._id r) (ShiftRequest.participantId r)
    (ShiftRequest.requestedBy r) (ShiftRequest.service r)
    (ShiftRequest.start r) (ShiftRequest.end_ r) (ShiftRequest.notes r)
    (ShiftRequest.preferredTrainerIds r) APPROVED (Some trainerId)
    (ShiftRequest.linkedShiftId r) (ShiftRequest.adminComment r)
    (Some adminUserId) (Some now) (ShiftRequest.declinedReason r).

(** The assignments of [decline] (l. 395-398). *)
Definition declineFields (adminUserId : ObjectId) (now : Z)
  (reason : option string) (r : ShiftRequest.t) : ShiftRequest.t :=
  ShiftRequest.mk (ShiftRequest._id r) (ShiftRequest.participantId r)
    (ShiftRequest.requestedBy r) (ShiftRequest.service r)
    (ShiftRequest.start r) (ShiftRequest.end_ r) (ShiftRequest.notes r)
    (ShiftRequest.preferredTrainerIds r) DECLINED
    (ShiftRequest.assignedTrainerId r)
    (ShiftRequest.linkedShiftId r) (ShiftRequest.adminComment r)
    (Some adminUserId) (Some now)
    (match reason with Some EmptyString | None => None | Some s => Some s end).

Definition setLinkedShiftId (sid : ObjectId) (r : ShiftRequest.t)
  : ShiftRequest.t :=
  ShiftRequest.mk (ShiftRequest._id r) (ShiftRequest.participantId r)
    (ShiftRequest.requestedBy r) (ShiftRequest.service r)
    (ShiftRequest.start r) (ShiftRequest.end_ r) (ShiftRequest.notes r)
    (ShiftRequest.preferredTrainerIds r) (ShiftRequest.status r)
    (ShiftRequest.assignedTrainerId r)
    (Some sid) (ShiftRequest.adminComment r)
    (ShiftRequest.approvedBy r) (ShiftRequest.approvedAt r)
    (ShiftRequest.declinedReason r).

Definition setRequestStatus (st : ShiftRequestStatus) (r : ShiftRequest.t)
  : ShiftRequest.t :=
  ShiftRequest.mk (ShiftRequest._id r) (ShiftRequest.participantId r)
    (ShiftRequest.requestedBy r) (ShiftRequest.service r)
    (ShiftRequest.start r) (ShiftRequest.end_ r) (ShiftRequest.notes r)
    (ShiftRequest.preferredTrainerIds r) st
    (ShiftRequest.assignedTrainerId r)
    (ShiftRequest.linkedShiftId r) (ShiftRequest.adminComment r)
    (ShiftRequest.approvedBy r) (ShiftRequest.approvedAt r)
    (ShiftRequest.declinedReason r).

(** [approveAndAssign] (l. 269-379).  The notification e-mails are sent
    inside a [try] whose [catch] only logs: they do not touch the store
    and cannot make the call fail. *)
Definition approveAndAssign (now : Z) (requestId trainerId adminUserId : IdStr)
  : M ShiftRequest.t :=
  match requestId, trainerId, adminUserId with
  | BadId _, _, _ => throw (AppError "Invalid requestId" 400)
  | GoodId _, BadId _, _ => throw (AppError "Invalid trainerId" 400)
  | GoodId _, GoodId _, BadId _ => throw (AppError "Invalid adminUserId" 400)
  | GoodId rid, GoodId tid, GoodId aid =>
      reqDoc <- loadShiftRequest rid ;;
      throwIf (negb (ShiftRequestStatus_beq (ShiftRequest.status reqDoc) PENDING_ADMIN))
              (AppError "Only PENDING_ADMIN requests can be approved" 409) ;;;
      found <- gets (fun s => findById Trainer._id tid (trainers s)) ;;
      match found with
      | None => throw (NotFoundError "Trainer")
      | Some trainer =>
          (* populate("userId", ...) *)
          trainerUser <- gets (fun s =>
                           findById User._id (Trainer.userId trainer) (users s)) ;;
          throwIf (negb (match trainerUser with
                         | Some u => Role_beq (User.role u) TRAINER
                         | None => false
                         end)
                   || (match trainerUser with
                       | Some u => UserStatus_beq (User.status u) U_BLOCKED
                       | None => false
                       end)
                   || String.eqb (Trainer.status trainer) "PENDING")
                  (AppError "Trainer is not eligible for assignment" 400) ;;;
          participant <- gets (fun s =>
                           find (fun p => Nat.eqb (Participant.userId p)
                                            (ShiftRequest.participantId reqDoc))
                                (participants s)) ;;
          match participant with
          | None => throw (NotFoundError "Participant")
          | Some _ =>
              let reqDoc := approveFields tid aid now reqDoc in
              saveShiftRequest reqDoc ;;;
              ret reqDoc
          end
      end
  end.

(** [decline] (l. 381-402) *)
Definition decline (now : Z) (requestId adminUserId : IdStr)
  (reason : option string) : M ShiftRequest.t :=
  match requestId with
  | BadId _ => throw (AppError "Invalid requestId" 400)
  | GoodId rid =>
      reqDoc <- loadShiftRequest rid ;;
      throwIf (negb (ShiftRequestStatus_beq (ShiftRequest.status reqDoc) PENDING_ADMIN))
              (AppError "Only PENDING_ADMIN requests can be declined" 409) ;;;
      aid <- newObjectId adminUserId ;;
      let reqDoc := declineFields aid now reason reqDoc in
      saveShiftRequest reqDoc ;;;
      ret reqDoc
  end.

(* ================================================================== *)
(** * Clock-in and clock-out (part_004, l. 695-898)                    *)
(* ================================================================== *)

(** [Trainer.findOne({ userId })] or the 404 of the clock services. *)
Definition loadTrainerOfUser (uid : ObjectId) : M Trainer.t :=
  found <- gets (fun s =>
             find (fun t => Nat.eqb (Trainer.userId t) uid) (trainers s)) ;;
  match found with
  | None => throw (AppError "Trainer profile not found for this user" 404)
  | Some t => ret t
  end.

(** [!reqDoc.assignedTrainerId ||
     String(reqDoc.assignedTrainerId) !== String(trainer._id)] *)
Definition notAssignedTo (r : ShiftRequest.t) (trainer : Trainer.t) : bool :=
  match ShiftRequest.assignedTrainerId r with
  | None => true
  | Some a => negb (Nat.eqb a (Trainer._id trainer))
  end.

(** [clockInShiftAsTrainer] (l. 701-778) *)
Definition clockInShiftAsTrainer (now : Z) (trainerUserId shiftRequestId : IdStr)
  : M Shift.t :=
  match trainerUserId, shiftRequestId with
  | BadId _, _ => throw (AppError "Invalid trainer user id" 400)
  | GoodId _, BadId _ => throw (AppError "Invalid shift request id" 400)
  | GoodId uid, GoodId rid =>
      trainer <- loadTrainerOfUser uid ;;
      reqDoc <- loadShiftRequest rid ;;
      throwIf (notAssignedTo reqDoc trainer)
              (AppError "This shift request is not assigned to you" 403) ;;;
      throwIf (negb (ShiftRequestStatus_beq (ShiftRequest.status reqDoc) APPROVED))
              (AppError "Only approved shift requests can be started" 409) ;;;
      existingActive <- gets (fun s =>
          find (fun sh => Nat.eqb (Shift.shiftRequestId sh) (ShiftRequest._id reqDoc)
                          && ShiftStatus_beq (Shift.status sh) S_IN_PROGRESS)
               (shifts s)) ;;
      throwIf (match existingActive with Some _ => true | None => false end)
              (AppError "This shift is already in progress" 409) ;;;
      let scheduledStart := ShiftRequest.start reqDoc in
      let scheduledEnd := ShiftRequest.end_ reqDoc in
      (* !+scheduledStart : the time value 0 is falsy *)
      throwIf ((scheduledStart =? 0) || (scheduledEnd =? 0)
               || (scheduledEnd <=? scheduledStart))
              (AppError "Shift request has invalid time window" 500) ;;;
      let scheduledDurationMs := scheduledEnd - scheduledStart in
      let scheduledDurationMinutes :=
        Math_round (inject_Z scheduledDurationMs / inject_Z 60000) in
      let plannedClockOut := now + scheduledDurationMs in
      id <- freshId ;;
      let shift :=
        Shift.mk id (ShiftRequest._id reqDoc) (ShiftRequest.participantId reqDoc)
          (Trainer._id trainer) (ShiftRequest.service reqDoc)
          scheduledStart scheduledEnd scheduledDurationMinutes
          now plannedClockOut None S_IN_PROGRESS None None in
      modify (setShifts (fun l => l ++ [shift])) ;;;
      (* reqDoc.status = "IN_PROGRESS" is commented out (l. 774) *)
      let reqDoc := setLinkedShiftId (Shift._id shift) reqDoc in
      saveShiftRequest reqDoc ;;;
      ret shift
  end.

Module ReportInput.
Record t := mk {
  activities : option string;
  progress : option string;
  incidents : option string;
  km : option Q
}.
End ReportInput.

(** [x || ""] *)
Definition orEmpty (x : option string) : string :=
  match x with Some s => s | None => EmptyString end.

(** The assignments of [clockOutShiftAsTrainer] to the shift
    (l. 849-878). *)
Definition completeShift (now : Z) (reqDoc : ShiftRequest.t)
  (report : option ReportInput.t) (shift : Shift.t) : Shift.t :=
  let auditOut :=
    if Shift.scheduledEnd shift <? now then Shift.scheduledEnd shift else now in
  let kmNum := match report with Some r => ReportInput.km r | None => None end in
  let rep :=
    Report.mk (orEmpty (match report with Some r => ReportInput.activities r | None => None end))
              (orEmpty (match report with Some r => ReportInput.progress r | None => None end))
              (orEmpty (match report with Some r => ReportInput.incidents r | None => None end))
              kmNum in
  let scheduledStart := ShiftRequest.start reqDoc in
  let scheduledEnd := ShiftRequest.end_ reqDoc in
  let billableMinutes := minutesBetween scheduledStart scheduledEnd in
  let '(hourlyRateCents, kmRateCents) := getPricingSnapshotForShift shift in
  Shift.mk (Shift._id shift) (Shift.shiftRequestId shift)
    (Shift.participantId shift) (Shift.trainerId shift) (Shift.service shift)
    (Shift.scheduledStart shift) (Shift.scheduledEnd shift)
    (Shift.scheduledDurationMinutes shift) (Shift.actualClockIn shift)
    (Shift.plannedClockOut shift) (Some auditOut) S_COMPLETED (Some rep)
    (Some (Billing.mk billableMinutes hourlyRateCents kmRateCents
             "ShiftRequest" scheduledStart scheduledEnd)).

(** [clockOutShiftAsTrainer] (l. 822-898).  The guard on the status of
    the shift is commented out in the source (l. 846). *)
Definition clockOutShiftAsTrainer (now : Z) (trainerUserId shiftRequestId : IdStr)
  (report : option ReportInput.t) : M (Shift.t * Timesheet.t) :=
  match trainerUserId, shiftRequestId with
  | BadId _, _ => throw (AppError "Invalid trainer user id" 400)
  | GoodId _, BadId _ => throw (AppError "Invalid shift request id" 400)
  | GoodId uid, GoodId rid =>
      trainer <- loadTrainerOfUser uid ;;
      reqDoc <- loadShiftRequest rid ;;
      throwIf (notAssignedTo reqDoc trainer)
              (AppError "This shift request is not assigned to you" 403) ;;;
      found <- gets (fun s =>
                 match ShiftRequest.linkedShiftId reqDoc with
                 | Some sid => findById Shift._id sid (shifts s)
                 | None => None
                 end) ;;
      match found with
      | None => throw (NotFoundError "Shift")
      | Some shift =>
          let shift := completeShift now reqDoc report shift in
          modify (setShifts (saveDoc Shift._id shift)) ;;;
          let reqDoc := setRequestStatus COMPLETED reqDoc in
          saveShiftRequest reqDoc ;;;
          let kmNum := match report with Some r => ReportInput.km r | None => None end in
          let billableMinutes :=
            minutesBetween (ShiftRequest.start reqDoc) (ShiftRequest.end_ reqDoc) in
          let '(hourlyRateCents, kmRateCents) := getPricingSnapshotForShift shift in
          timesheet <- upsertTimesheetForShift
            (UpsertArgs.mk (Shift.trainerId shift) (Shift.participantId shift)
               (Shift._id shift) (Shift.service shift)
               (ShiftRequest.end_ reqDoc)
               (inject_Z billableMinutes)
               (Some (orQ0 kmNum))
               hourlyRateCents (Some kmRateCents)) ;;
          ret (shift, timesheet)
      end
  end.

(* ================================================================== *)
(** * Further functions of the services                                *)
(* ================================================================== *)

(** [billableMinutes] of utils/time-money.ts (l. 18-21): rounding to the
    quarter of an hour, one hour at least. *)
Definition billableMinutes (rawMinutes : Q) : Z :=
  let rounded := Math_round (rawMinutes / inject_Z 15) * 15 in
  Z.max 60 rounded.

(** [Math.ceil] *)
Definition Math_ceil (x : Q) : Z := Qceiling x.

(** The field [pages] of the pagination that [listForAdmin],
    [listForParticipant] and [listForTrainer] return (part_004, l. 258,
    543, 675): [Math.ceil(total / Math.max(1, limit))]. *)
Definition paginationPages (total limit : Z) : Z :=
  Math_ceil (inject_Z total / inject_Z (Z.max 1 limit)).

(** [String.prototype.split] with a separator of one character. *)
Fixpoint splitOn (sep : Ascii.ascii) (s : string) : list string :=
  match s with
  | EmptyString => [EmptyString]
  | String c r =>
      if Ascii.eqb c sep then EmptyString :: splitOn sep r
      else match splitOn sep r with
           | x :: xs => String c x :: xs
           | [] => [String c EmptyString]
           end
  end.

(** [parseSort] (part_004, l. 444-453).  The argument is typed as one of
    four keys and is a query string at run time; [None] is [undefined]. *)
Definition parseSort (sort : option string) : string * Z :=
  let s := match sort with
           | Some EmptyString | None => "createdAt:desc"%string
           | Some x => x
           end in
  let parts := splitOn ":"%char s in
  let field := nth_error parts 0 in
  let dir := nth_error parts 1 in
  (match field with
   | Some f => if String.eqb f "start" then "start"%string else "createdAt"%string
   | None => "createdAt"%string
   end,
   match dir with
   | Some d => if String.eqb d "asc" then 1 else -1
   | None => -1
   end).

(** The parsing of the sort key in [listForAdmin] (part_004,
    l. 151-159), with its set of allowed fields. *)
Definition adminSort (sort : option string) : string * Z :=
  let s := match sort with
           | Some EmptyString | None => "createdAt:desc"%string
           | Some x => x
           end in
  let parts := splitOn ":"%char s in
  let sortFieldRaw := nth_error parts 0 in
  let sortDirRaw := nth_error parts 1 in
  let allowedSortFields := ["createdAt"%string; "start"%string] in
  (match sortFieldRaw with
   | Some f => if existsb (String.eqb f) allowedSortFields then f
               else "createdAt"%string
   | None => "createdAt"%string
   end,
   match sortDirRaw with
   | Some d => if String.eqb d "asc" then 1 else -1
   | None => -1
   end).

(** [getTimesheetById] (part_003, l. 142-150); the timesheet comes with
    its populated trainer. *)
Definition getTimesheetById (id : IdStr) : M (Timesheet.t * option Trainer.t) :=
  match id with
  | BadId _ => throw (AppError "Invalid timesheet id" 400)
  | GoodId o =>
      found <- gets (fun s => findById Timesheet._id o (timesheets s)) ;;
      match found with
      | None => throw (NotFoundError "Timesheet")
      | Some ts =>
          trainer <- gets (fun s =>
                       findById Trainer._id (Timesheet.trainerId ts) (trainers s)) ;;
          ret (ts, trainer)
      end
  end.

(** [Model.countDocuments(filter)] *)
Definition countDocuments {A} (p : A -> bool) (l : list A) : Z :=
  Z.of_nat (List.length (filter p l)).

(** The counters by status of [getAdminDashboardSummary] (part_004,
    l. 1344-1358, 1375-1391, 1408-1414, 1426-1440). *)
Module Dashboard.

Record UsersByRole := mkUsersByRole {
  admins : Z; trainersCount : Z; participantsCount : Z }.

Record UserStatuses := mkUserStatuses {
  active : Z; pending : Z; blocked : Z; deleted : Z }.

Record SrByStatus := mkSrByStatus {
  pending_admin : Z; approved : Z; declined : Z; cancelled : Z;
  in_progress : Z; completed : Z }.

Record ShiftsByStatus := mkShiftsByStatus {
  s_in_progress : Z; s_completed : Z; s_cancelled : Z }.

Record TimesheetsByStatus := mkTimesheetsByStatus {
  draft : Z; submitted : Z; t_approved : Z; paid : Z; reopened : Z }.

Definition usersByRole (st : Store) : UsersByRole :=
  mkUsersByRole
    (countDocuments (fun u => Role_beq (User.role u) ADMIN) (users st))
    (countDocuments (fun u => Role_beq (User.role u) TRAINER) (users st))
    (countDocuments (fun u => Role_beq (User.role u) PARTICIPANT) (users st)).

Definition userStatuses (st : Store) : UserStatuses :=
  mkUserStatuses
    (countDocuments (fun u => UserStatus_beq (User.status u) U_ACTIVE) (users st))
    (countDocuments (fun u => UserStatus_beq (User.status u) U_PENDING) (users st))
    (countDocuments (fun u => UserStatus_beq (User.status u) U_BLOCKED) (users st))
    (countDocuments (fun u => UserStatus_beq (User.status u) U_DELETED) (users st)).

Definition totalUsers (st : Store) : Z := countDocuments (fun _ => true) (users st).

Definition srByStatus (st : Store) : SrByStatus :=
  let c s := countDocuments
               (fun r => ShiftRequestStatus_beq (ShiftRequest.status r) s)
               (shiftRequests st) in
  mkSrByStatus (c PENDING_ADMIN) (c APPROVED) (c DECLINED) (c CANCELLED)
               (c IN_PROGRESS) (c COMPLETED).

Definition srTotal (st : Store) : Z :=
  countDocuments (fun _ => true) (shiftRequests st).

(** [start > now] and status APPROVED or IN_PROGRESS. *)
Definition srUpcoming (now : Z) (st : Store) : Z :=
  countDocuments
    (fun r => (now <? ShiftRequest.start r)
              && existsb (ShiftRequestStatus_beq (ShiftRequest.status r))
                         [APPROVED; IN_PROGRESS])
    (shiftRequests st).

Definition shiftsByStatus (st : Store) : ShiftsByStatus :=
  let c s := countDocuments (fun x => ShiftStatus_beq (Shift.status x) s)
               (shifts st) in
  mkShiftsByStatus (c S_IN_PROGRESS) (c S_COMPLETED) (c S_CANCELLED).

Definition shiftsTotal (st : Store) : Z :=
  countDocuments (fun _ => true) (shifts st).

Definition timesheetsByStatus (st : Store) : TimesheetsByStatus :=
  let c s := countDocuments (fun x => TimesheetStatus_beq (Timesheet.status x) s)
               (timesheets st) in
  mkTimesheetsByStatus (c T_DRAFT) (c T_SUBMITTED) (c T_APPROVED) (c T_PAID)
                       (c T_REOPENED).

Definition timesheetsTotal (st : Store) : Z :=
  countDocuments (fun _ => true) (timesheets st).

End Dashboard.

(* ================================================================== *)
(** * Notions of the specification                                     *)
(* ================================================================== *)

Definition sumZ (l : list Z) : Z := fold_right Z.add 0 l.

Definition sumQ (l : list Q) : Q := fold_right Qplus 0%Q l.

(** The totals of a timesheet are the sums over its items, field by
    field. *)
Definition totals_exact (ts : Timesheet.t) : Prop :=
  let items := Timesheet.items ts in
  let t := Timesheet.totals ts in
  Totals.totalCents t = sumZ (map Item.totalCents items) /\
  (Totals.hours t == sumQ (map (fun i => orQ0 (Item.hours i)) items))%Q /\
  (Totals.km t == sumQ (map (fun i => orQ0 (Item.km i)) items))%Q /\
  Totals.amountCents t = sumZ (map (fun i => orZ0 (Item.amountCents i)) items) /\
  Totals.mileageCents t = sumZ (map (fun i => orZ0 (Item.mileageCents i)) items).

(** The total of a line is its labour plus its mileage. *)
Definition item_consistent (i : Item.t) : Prop :=
  Item.totalCents i = orZ0 (Item.amountCents i) + orZ0 (Item.mileageCents i).

(** The shift ids of the lines of a timesheet, in order. *)
Definition shiftIds (ts : Timesheet.t) : list ObjectId :=
  map Item.shiftId (Timesheet.items ts).

(** Number of lines of [ts] keyed by the shift [k]. *)
Definition linesOf (k : ObjectId) (ts : Timesheet.t) : nat :=
  count_occ Nat.eq_dec (shiftIds ts) k.

(** A timesheet as the aggregator keeps it. *)
Definition sheet_ok (ts : Timesheet.t) : Prop :=
  Forall item_consistent (Timesheet.items ts) /\
  NoDup (shiftIds ts) /\
  totals_exact ts.

(** What a line adds to the hours: its [hours], or its minutes over 60
    when it has none. *)
Definition hoursOf (i : Item.t) : Q :=
  match Item.hours i with
  | Some h => h
  | None => orQ0 (Item.minutes i) / inject_Z 60
  end.

(** Replace-or-append by [shiftId], by recursion on the items. *)
Fixpoint placeRec (item : Item.t) (l : list Item.t) : list Item.t :=
  match l with
  | [] => [item]
  | x :: r =>
      if Nat.eqb (Item.shiftId x) (Item.shiftId item) then item :: r
      else x :: placeRec item r
  end.

(** Two stores with the same accounts, profiles, requests and shifts. *)
Definition sameCore (s s' : Store) : Prop :=
  users s' = users s /\ trainers s' = trainers s /\
  participants s' = participants s /\
  shiftRequests s' = shiftRequests s /\ shifts s' = shifts s.

(** The timesheet that [findOneAndUpdate] inserts. *)
Definition blankSheet (id trainerId : ObjectId) (weekStart weekEnd : Z)
  : Timesheet.t :=
  Timesheet.mk id trainerId weekStart weekEnd T_DRAFT [] (Totals.mk 0 0 0 0 0) [].

(* ================================================================== *)
(** * The operations of the API, and the stores they reach             *)
(* ================================================================== *)

Inductive Op :=
| OpCreate (now : Z) (payload : CreateShiftRequestInput.t) (role : option Role)
| OpApproveAndAssign (now : Z) (requestId trainerId adminUserId : IdStr)
| OpDecline (now : Z) (requestId adminUserId : IdStr) (reason : option string)
| OpClockIn (now : Z) (trainerUserId shiftRequestId : IdStr)
| OpClockOut (now : Z) (trainerUserId shiftRequestId : IdStr)
    (report : option ReportInput.t)
| OpUpsertTimesheet (a : UpsertArgs.t)
| OpSubmitTimesheet (id trainerUserId : IdStr)
| OpApproveTimesheet (id adminUserId : IdStr)
| OpReopenTimesheet (now : Z) (id adminUserId : IdStr) (reason : option string).

(** The store after an operation, whether it returned or threw. *)
Definition exec (op : Op) (s : Store) : Store :=
  match op with
  | OpCreate now p role => snd (createShiftRequest now p role s)
  | OpApproveAndAssign now r t a => snd (approveAndAssign now r t a s)
  | OpDecline now r a reason => snd (decline now r a reason s)
  | OpClockIn now u r => snd (clockInShiftAsTrainer now u r s)
  | OpClockOut now u r rep => snd (clockOutShiftAsTrainer now u r rep s)
  | OpUpsertTimesheet a => snd (upsertTimesheetForShift a s)
  | OpSubmitTimesheet id u => snd (submitTimesheet id u s)
  | OpApproveTimesheet id u => snd (approveTimesheet id u s)
  | OpReopenTimesheet now id u reason => snd (reopenTimesheet now id u reason s)
  end.

Definition execAll (ops : list Op) (s : Store) : Store :=
  fold_left (fun s op => exec op s) ops s.

(** A database with accounts and profiles, and no shift request, shift
    or timesheet yet. *)
Definition freshStore (us : list User.t) (trs : list Trainer.t)
  (ps : list Participant.t) (n : ObjectId) : Store :=
  mkStore us trs ps [] [] [] n.

(** At most one shift of a request is in progress. *)
Definition activeShiftsOf (rid : ObjectId) (s : Store) : list Shift.t :=
  filter (fun sh => Nat.eqb (Shift.shiftRequestId sh) rid
                    && ShiftStatus_beq (Shift.status sh) S_IN_PROGRESS)
         (shifts s).

Definition oneActive (s : Store) : Prop :=
  forall rid, (List.length (activeShiftsOf rid s) <= 1)%nat.

(** The ids in use are below the generator, and a linked shift carries
    the window of its request. *)
Definition ids_fresh (s : Store) : Prop :=
  Forall (fun sh => (Shift._id sh < nextId s)%nat) (shifts s) /\
  Forall (fun r => match ShiftRequest.linkedShiftId r with
                   | Some sid => (sid < nextId s)%nat
                   | None => True
                   end) (shiftRequests s).

Definition link_ok (s : Store) : Prop :=
  forall r sid sh,
    In r (shiftRequests s) ->
    ShiftRequest.linkedShiftId r = Some sid ->
    findById Shift._id sid (shifts s) = Some sh ->
    Shift.scheduledStart sh = ShiftRequest.start r /\
    Shift.scheduledEnd sh = ShiftRequest.end_ r.

(* ================================================================== *)
(** * Auxiliary notions and sample data                                *)
(* ================================================================== *)

(** A computation that leaves the store as it is. *)
Definition readonly {A} (c : M A) : Prop := forall s, snd (c s) = s.

(** The transitions that the code allows, as a function of the status. *)
Definition canApprove (s : TimesheetStatus) : bool :=
  match s with T_SUBMITTED | T_REOPENED => true | _ => false end.

Definition canReopen (s : TimesheetStatus) : bool :=
  match s with T_SUBMITTED | T_APPROVED => true | _ => false end.

(** A store with one timesheet of the given status. *)
Definition oneSheetStore (s : TimesheetStatus) : Store :=
  mkStore [] [] [] [] []
    [Timesheet.mk 7%nat 1%nat 1708905600000 1709510399999 s []
       (Totals.mk 0 0 0 0 0) []] 8%nat.

(** The window that [validateRequestWindow] accepts at the time [now]. *)
Definition windowOk (now s e : Z) : Prop :=
  s < e /\ now <= e /\ 30 * msPerMinute <= e - s.

(** One participant account, and a payload of that participant for a
    window of one hour. *)
Definition aliceStore : Store :=
  mkStore [User.mk 1%nat "alice@example.org" PARTICIPANT U_ACTIVE] [] [] [] [] []
          10%nat.

Definition alicePayload (service : string) : CreateShiftRequestInput.t :=
  CreateShiftRequestInput.mk (GoodId 1%nat) (GoodId 1%nat) service
    (DateAt 1709283600000) (DateAt 1709287200000) None None.

(** The eligibility test of [approveAndAssign], in the words of the
    specification: the trainer's account is missing or is not a TRAINER,
    or it is BLOCKED, or the profile is PENDING. *)
Definition notEligible (st : Store) (trainer : Trainer.t) : Prop :=
  match findById User._id (Trainer.userId trainer) (users st) with
  | None => True
  | Some u => User.role u <> TRAINER \/ User.status u = U_BLOCKED
  end \/ Trainer.status trainer = "PENDING"%string.

(** A participant (user 1), two trainers (users 2 and 4, the second one
    blocked) and an admin (user 3). *)
Definition demoStore : Store :=
  mkStore
    [User.mk 1%nat "alice@example.org" PARTICIPANT U_ACTIVE;
     User.mk 2%nat "tom@example.org" TRAINER U_ACTIVE;
     User.mk 3%nat "admin@example.org" ADMIN U_ACTIVE;
     User.mk 4%nat "bob@example.org" TRAINER U_BLOCKED]
    [Trainer.mk 20%nat 2%nat "approved"; Trainer.mk 21%nat 4%nat "approved"]
    [Participant.mk 30%nat 1%nat "Alice" "alice@example.org"]
    [] [] [] 100%nat.

(** 2024-03-01, 09:00 to 10:00 UTC, requested the day before. *)
Definition demoPayload : CreateShiftRequestInput.t :=
  CreateShiftRequestInput.mk (GoodId 1%nat) (GoodId 1%nat) "PersonalCare"
    (DateAt 1709283600000) (DateAt 1709287200000) None None.

Definition demoCreated : Store :=
  exec (OpCreate 1709200000000 demoPayload (Some PARTICIPANT)) demoStore.

Definition demoApproved : Store :=
  exec (OpApproveAndAssign 1709210000000 (GoodId 100%nat) (GoodId 20%nat)
          (GoodId 3%nat)) demoCreated.

(** Clock-in at 09:15. *)
Definition demoClockedIn : Store :=
  exec (OpClockIn 1709284500000 (GoodId 2%nat) (GoodId 100%nat)) demoApproved.

(** Clock-out at 10:30, with 12 km. *)
Definition demoReport : ReportInput.t :=
  ReportInput.mk (Some "walk"%string) None None (Some (inject_Z 12)).

Definition demoClockedOut : Store :=
  exec (OpClockOut 1709289000000 (GoodId 2%nat) (GoodId 100%nat) (Some demoReport))
       demoClockedIn.

(** The request of the scenario, as created and as approved. *)
Definition demoRequest : ShiftRequest.t :=
  ShiftRequest.mk 100 1 1 "PersonalCare" 1709283600000 1709287200000 None []
    PENDING_ADMIN None None None None None None.

Definition demoRequestApproved : ShiftRequest.t :=
  approveFields 20 3 1709210000000 demoRequest.

(** The document that [clockInShiftAsTrainer] creates. *)
Definition clockedInShift (now : Z) (r : ShiftRequest.t) (trainer : Trainer.t)
  (id : ObjectId) : Shift.t :=
  Shift.mk id (ShiftRequest._id r) (ShiftRequest.participantId r)
    (Trainer._id trainer) (ShiftRequest.service r)
    (ShiftRequest.start r) (ShiftRequest.end_ r)
    (Math_round (inject_Z (ShiftRequest.end_ r - ShiftRequest.start r)
                 / inject_Z 60000))
    now (now + (ShiftRequest.end_ r - ShiftRequest.start r)) None
    S_IN_PROGRESS None None.

(** The store after a clock-in that returned. *)
Definition afterClockIn (now : Z) (r : ShiftRequest.t) (trainer : Trainer.t)
  (st : Store) : Store :=
  mkStore (users st) (trainers st) (participants st)
    (saveDoc ShiftRequest._id (setLinkedShiftId (nextId st) r) (shiftRequests st))
    (shifts st ++ [clockedInShift now r trainer (nextId st)])
    (timesheets st) (S (nextId st)).

(** The guard against a second clock-in: a shift of the request [rid]
    is in progress. *)
Definition hasActiveShift (rid : ObjectId) (st : Store) : Prop :=
  exists sh, In sh (shifts st) /\ Shift.shiftRequestId sh = rid /\
             Shift.status sh = S_IN_PROGRESS.

(** The arguments with which [clockOutShiftAsTrainer] calls the
    aggregator. *)
Definition clockOutArgs (r : ShiftRequest.t) (report : option ReportInput.t)
  (shift : Shift.t) : UpsertArgs.t :=
  UpsertArgs.mk (Shift.trainerId shift) (Shift.participantId shift)
    (Shift._id shift) (Shift.service shift) (ShiftRequest.end_ r)
    (inject_Z (minutesBetween (ShiftRequest.start r) (ShiftRequest.end_ r)))
    (Some (orQ0 (match report with Some x => ReportInput.km x | None => None end)))
    (inject_Z 6500) (Some (inject_Z 85)).

(** The store of [clockOutShiftAsTrainer] after its two saves and before
    the upsert of the timesheet. *)
Definition afterClockOutSaves (now : Z) (r : ShiftRequest.t)
  (report : option ReportInput.t) (sh : Shift.t) (st : Store) : Store :=
  setShiftRequests (saveDoc ShiftRequest._id (setRequestStatus COMPLETED r))
    (setShifts (saveDoc Shift._id (completeShift now r report sh)) st).

(** What a step of the timesheet workflow may do to the store: nothing,
    or save one timesheet with a new status or audit log, its lines and
    totals as they were. *)
Definition sheetUpdate (st st' : Store) : Prop :=
  st' = st \/
  exists ts ts',
    In ts (timesheets st) /\
    Timesheet.items ts' = Timesheet.items ts /\
    Timesheet.totals ts' = Timesheet.totals ts /\
    st' = setTimesheets (saveDoc Timesheet._id ts') st.

(** Every timesheet of the store is as the aggregator keeps it. *)
Definition sheets_inv (st : Store) : Prop := Forall sheet_ok (timesheets st).

(** The body of the upsert, run for each of the calls in turn on one
    timesheet; a call is the arguments and the end of the week. *)
Definition applyUpserts (ts : Timesheet.t) (calls : list (UpsertArgs.t * Z))
  : Timesheet.t :=
  fold_left (fun t c => applyUpsert t (fst c) (snd c)) calls ts.

(** Sample data: two upserts for the shift 101, at 60 and at 90 minutes. *)
Definition demoUpsert (minutes : Z) : UpsertArgs.t :=
  UpsertArgs.mk 20 1 101 "PersonalCare" 1709287200000 (inject_Z minutes)
    (Some (inject_Z 12)) (inject_Z 6500) (Some (inject_Z 85)).

Definition demoSheet : Timesheet.t :=
  applyUpsert (blankSheet 102 20 1708905600000 1709510399999) (demoUpsert 60)
    1709510399999.

(** The shift of the scenario after the clock-out at 10:30. *)
Definition demoShiftCompleted : Shift.t :=
  completeShift 1709289000000 (setLinkedShiftId 101 demoRequestApproved)
    (Some demoReport)
    (clockedInShift 1709284500000 demoRequestApproved (Trainer.mk 20 2 "approved") 101).

(** A step of the timesheet workflow in full: nothing, or one stored
    timesheet saved with a new status and with its audit log as it was
    or extended at the end. *)
Definition workflowStep (st st' : Store) : Prop :=
  st' = st \/
  exists ts s extra,
    In ts (timesheets st) /\
    (s = T_SUBMITTED \/ s = T_APPROVED \/ s = T_REOPENED) /\
    st' = setTimesheets
            (saveDoc Timesheet._id
               (setTimesheetAudit (Timesheet.audit ts ++ extra)
                  (setTimesheetStatus s ts))) st.

(** The fields of a timesheet that name its week. *)
Definition week_fields_ok (ts : Timesheet.t) : Prop :=
  WeekDay (Timesheet.weekStart ts) = 1 /\
  TimeWithinDay (Timesheet.weekStart ts) = 0 /\
  Timesheet.weekEnd ts = Timesheet.weekStart ts + 7 * msPerDay - 1.

(** The key of the unique index of the timesheets. *)
Definition sheetKey (ts : Timesheet.t) : ObjectId * Z :=
  (Timesheet.trainerId ts, Timesheet.weekStart ts).

(** Ids are below the generator and distinct within each collection;
    no two timesheets have the same trainer and week. *)
Definition ids_inv (st : Store) : Prop :=
  Forall (fun r => (ShiftRequest._id r < nextId st)%nat) (shiftRequests st) /\
  Forall (fun x => (Shift._id x < nextId st)%nat) (shifts st) /\
  Forall (fun t => (Timesheet._id t < nextId st)%nat) (timesheets st) /\
  NoDup (map ShiftRequest._id (shiftRequests st)) /\
  NoDup (map Shift._id (shifts st)) /\
  NoDup (map Timesheet._id (timesheets st)) /\
  NoDup (map sheetKey (timesheets st)).

(** The statuses that the operations produce. *)
Definition statuses_inv (st : Store) : Prop :=
  Forall (fun r => ShiftRequest.status r <> CANCELLED /\
                   ShiftRequest.status r <> IN_PROGRESS) (shiftRequests st) /\
  Forall (fun x => Shift.status x <> S_CANCELLED) (shifts st) /\
  Forall (fun t => Timesheet.status t <> T_PAID) (timesheets st).

(** How an operation may change the requests: not at all, by adding a
    request, or by saving a stored request with new fields. *)
Definition requestsStep (st st' : Store) : Prop :=
  shiftRequests st' = shiftRequests st \/
  (exists c, shiftRequests st' = shiftRequests st ++ [c] /\
             ShiftRequest._id c = nextId st /\
             ShiftRequest.status c = PENDING_ADMIN) \/
  (exists r r',
     In r (shiftRequests st) /\ ShiftRequest._id r' = ShiftRequest._id r /\
     shiftRequests st' = saveDoc ShiftRequest._id r' (shiftRequests st) /\
     (ShiftRequest.status r' = APPROVED \/ ShiftRequest.status r' = DECLINED \/
      ShiftRequest.status r' = COMPLETED)).

(** How an operation may change the shifts. *)
Definition shiftsStep (st st' : Store) : Prop :=
  shifts st' = shifts st \/
  (exists x, shifts st' = shifts st ++ [x] /\ Shift._id x = nextId st /\
             Shift.status x = S_IN_PROGRESS) \/
  (exists x x', In x (shifts st) /\ Shift._id x' = Shift._id x /\
                shifts st' = saveDoc Shift._id x' (shifts st) /\
                Shift.status x' = S_COMPLETED).

(** How an operation may change the timesheets: not at all, by a step of
    the workflow, or by an upsert, which saves the recomputed timesheet
    over the one of its trainer and week, inserted first when there was
    none. *)
Definition timesheetsStep (st st' : Store) : Prop :=
  timesheets st' = timesheets st \/
  (exists ts s extra,
     In ts (timesheets st) /\
     (s = T_SUBMITTED \/ s = T_APPROVED \/ s = T_REOPENED) /\
     timesheets st'
     = saveDoc Timesheet._id
         (setTimesheetAudit (Timesheet.audit ts ++ extra) (setTimesheetStatus s ts))
         (timesheets st)) \/
  (exists a ws we ts0,
     startOfWeekUTC (Some (UpsertArgs.date a)) = Some ws /\
     endOfWeekUTC (Some ws) = Some we /\
     Timesheet.trainerId ts0 = UpsertArgs.trainerId a /\
     Timesheet.weekStart ts0 = ws /\
     ((In ts0 (timesheets st) /\
       timesheets st'
       = saveDoc Timesheet._id (applyUpsert ts0 a we) (timesheets st)) \/
      (ts0 = blankSheet (nextId st) (UpsertArgs.trainerId a) ws we /\
       ~ In (UpsertArgs.trainerId a, ws) (map sheetKey (timesheets st)) /\
       timesheets st'
       = saveDoc Timesheet._id (applyUpsert ts0 a we) (timesheets st ++ [ts0])))).

(* ================================================================== *)
(** * Properties of the Date built-ins and of the week buckets         *)
(* ================================================================== *)

Section DateFacts.

Lemma DayFromYear_step y : DayFromYear (y + 1) - DayFromYear y = DaysInYear y.
Proof.
  unfold DayFromYear, DaysInYear.
  destruct (Z.eqb_spec (y mod 4) 0), (Z.eqb_spec (y mod 100) 0),
    (Z.eqb_spec (y mod 400) 0); cbn [negb];
    Z.div_mod_to_equations; lia.
Qed.

(** [YearFromDay] is the year of ECMA-262: the one whose first day is
    at or before [d] and whose successor starts after [d]. *)
Lemma YearFromDay_spec d :
  DayFromYear (YearFromDay d) <= d < DayFromYear (YearFromDay d + 1).
Proof.
  unfold YearFromDay.
  set (y := 1970 + d * 400 / 146097).
  assert (Hlo : DayFromYear (y - 1) <= d).
  { unfold DayFromYear, y. Z.div_mod_to_equations. lia. }
  assert (Hhi : d < DayFromYear (y + 2)).
  { unfold DayFromYear, y. Z.div_mod_to_equations. lia. }
  destruct (Z.leb_spec (DayFromYear (y + 1)) d).
  - replace (y + 1 + 1) with (y + 2) by lia. lia.
  - destruct (Z.leb_spec (DayFromYear y) d).
    + lia.
    + replace (y - 1 + 1) with y by lia. lia.
Qed.

Lemma DayWithinYear_range t :
  0 <= DayWithinYear t < 365 + InLeapYear t.
Proof.
  unfold DayWithinYear, InLeapYear, YearFromTime.
  pose proof (YearFromDay_spec (Day t)) as H.
  pose proof (DayFromYear_step (YearFromDay (Day t))) as Hs.
  destruct (Z.eqb_spec (DaysInYear (YearFromDay (Day t))) 366) as [E|E].
  - lia.
  - assert (DaysInYear (YearFromDay (Day t)) = 365).
    { revert E. unfold DaysInYear.
      repeat match goal with |- context [if ?b then _ else _] => destruct b end;
        congruence. }
    lia.
Qed.

Lemma MonthFromTime_range t : 0 <= MonthFromTime t <= 11.
Proof.
  unfold MonthFromTime.
  repeat match goal with |- context [if ?b then _ else _] => destruct b end; lia.
Qed.

(** Taking a time apart into year, month and date and putting the parts
    together again gives its day number; [MakeDay] is linear in the
    date. *)
Lemma MakeDay_parts t k :
  MakeDay (YearFromTime t) (MonthFromTime t) (DateFromTime t + k) = Day t + k.
Proof.
  pose proof (MonthFromTime_range t) as Hm.
  unfold MakeDay.
  rewrite Z.div_small, Z.mod_small by lia.
  rewrite Z.add_0_r.
  unfold DateFromTime, DayWithinYear, InLeapYear. lia.
Qed.

Lemma MakeDay_parts0 t :
  MakeDay (YearFromTime t) (MonthFromTime t) (DateFromTime t) = Day t.
Proof.
  pose proof (MakeDay_parts t 0) as H. rewrite !Z.add_0_r in H. exact H.
Qed.

Lemma Day_mul d : Day (d * msPerDay) = d.
Proof. unfold Day, msPerDay. apply Z.div_mul. lia. Qed.

Lemma TimeWithinDay_mul d : TimeWithinDay (d * msPerDay) = 0.
Proof. unfold TimeWithinDay, msPerDay. apply Z.mod_mul. lia. Qed.

End DateFacts.

Ltac ms_lia :=
  unfold MakeDate, MakeTime, maxTime, msPerDay, msPerHour, msPerMinute,
    msPerSecond in *; lia.

Section WeekFacts.

Lemma TimeClip_ok t : - maxTime <= t <= maxTime -> TimeClip t = Some t.
Proof.
  intros H. unfold TimeClip.
  destruct (Z.leb_spec (Z.abs t) maxTime); [reflexivity | lia].
Qed.

Lemma setUTCDate_shift t k :
  setUTCDate (Some t) (Some (DateFromTime t + k)) = TimeClip (t + k * msPerDay).
Proof.
  unfold setUTCDate. rewrite MakeDay_parts. f_equal.
  unfold MakeDate, Day, TimeWithinDay, msPerDay.
  Z.div_mod_to_equations. lia.
Qed.

Lemma UTC_of_parts t :
  YearFromTime t < 0 \/ 99 < YearFromTime t ->
  UTC (YearFromTime t) (MonthFromTime t) (DateFromTime t)
  = TimeClip (Day t * msPerDay).
Proof.
  intros Hy. unfold UTC.
  replace ((0 <=? YearFromTime t) && (YearFromTime t <=? 99)) with false.
  - rewrite MakeDay_parts0. unfold MakeDate, MakeTime. f_equal. lia.
  - symmetry. apply andb_false_iff.
    destruct Hy; [left; apply Z.leb_gt | right; apply Z.leb_gt]; lia.
Qed.

Lemma mondayOf_spec n :
  (mondayOf n + 4) mod 7 = 1 /\ mondayOf n <= n <= mondayOf n + 6.
Proof. unfold mondayOf. Z.div_mod_to_equations. lia. Qed.

Variable d : Z.
Hypothesis Hyear : YearFromTime d < 0 \/ 99 < YearFromTime d.
Hypothesis Hrange : - maxTime + 6 * msPerDay <= d <= maxTime - 7 * msPerDay.

Lemma Day_bounds : Day d * msPerDay <= d < Day d * msPerDay + msPerDay.
Proof. unfold Day, msPerDay. Z.div_mod_to_equations. lia. Qed.

Lemma startOfWeekUTC_value :
  startOfWeekUTC (Some d) = Some (mondayOf (Day d) * msPerDay).
Proof.
  pose proof Day_bounds as Hb. pose proof (mondayOf_spec (Day d)) as [_ Hm].
  unfold startOfWeekUTC. cbn [getUTCFullYear getUTCMonth getUTCDate option_map].
  rewrite UTC_of_parts by exact Hyear.
  rewrite TimeClip_ok by ms_lia.
  cbn [getUTCDay getUTCDate option_map num2].
  unfold WeekDay at 1. rewrite Day_mul.
  replace (DateFromTime (Day d * msPerDay) - (((Day d + 4) mod 7 + 6) mod 7))
    with (DateFromTime (Day d * msPerDay) + - (((Day d + 4) mod 7 + 6) mod 7)) by lia.
  rewrite setUTCDate_shift.
  replace (Day d * msPerDay + - (((Day d + 4) mod 7 + 6) mod 7) * msPerDay)
    with (mondayOf (Day d) * msPerDay) by (unfold mondayOf; lia).
  rewrite TimeClip_ok by ms_lia.
  unfold setUTCHours. rewrite Day_mul. unfold MakeDate, MakeTime.
  rewrite TimeClip_ok by ms_lia.
  f_equal. ms_lia.
Qed.

Lemma endOfWeekUTC_value ws :
  - maxTime <= ws -> ws + 7 * msPerDay <= maxTime ->
  TimeWithinDay ws = 0 ->
  endOfWeekUTC (Some ws) = Some (ws + 6 * msPerDay + MakeTime 23 59 59 999).
Proof.
  intros Hlo Hhi H0.
  unfold endOfWeekUTC. cbn [getUTCDate option_map num2].
  rewrite setUTCDate_shift.
  rewrite TimeClip_ok by ms_lia.
  unfold setUTCHours.
  assert (E : Day (ws + 6 * msPerDay) * msPerDay = ws + 6 * msPerDay).
  { revert H0. unfold Day, TimeWithinDay, msPerDay.
    Z.div_mod_to_equations. lia. }
  unfold MakeDate at 1. rewrite E.
  apply TimeClip_ok. ms_lia.
Qed.

Lemma TimeMoney_startOfWeekUTC_value :
  TimeMoney.startOfWeekUTC (Some d) = Some (mondayOf (Day d) * msPerDay).
Proof.
  pose proof Day_bounds as Hb. pose proof (mondayOf_spec (Day d)) as [_ Hm].
  unfold TimeMoney.startOfWeekUTC.
  cbn [getUTCFullYear getUTCMonth getUTCDate option_map].
  rewrite UTC_of_parts by exact Hyear.
  rewrite TimeClip_ok by ms_lia.
  cbn [getUTCDay getUTCDate option_map num2].
  unfold WeekDay. rewrite Day_mul.
  assert (Hw : 0 <= (Day d + 4) mod 7 < 7) by (apply Z.mod_pos_bound; lia).
  set (w := (Day d + 4) mod 7) in *.
  assert (Hmon : mondayOf (Day d) = Day d - (w + 6) mod 7) by reflexivity.
  assert (Hday : (match w with 0 => 7 | _ => w end) - 1 = (w + 6) mod 7).
  { destruct (Z.eq_dec w 0) as [->|Hn]; [reflexivity|].
    rewrite Z.add_comm.
    replace (match w with 0 => 7 | _ => w end) with w by (destruct w; congruence).
    Z.div_mod_to_equations. lia. }
  replace (match w with 0 => 7 | Z.pos _ | Z.neg _ => w end)
    with (match w with 0 => 7 | _ => w end) by reflexivity.
  destruct (Z.ltb_spec 1 (match w with 0 => 7 | _ => w end)) as [Hlt|Hge].
  - rewrite Hday.
    replace (DateFromTime (Day d * msPerDay) - (w + 6) mod 7)
      with (DateFromTime (Day d * msPerDay) + - ((w + 6) mod 7)) by lia.
    rewrite setUTCDate_shift.
    rewrite TimeClip_ok by ms_lia.
    f_equal. ms_lia.
  - f_equal. ms_lia.
Qed.

End WeekFacts.

Lemma TimeMoney_endOfWeekUTC_eq ws :
  TimeMoney.endOfWeekUTC ws = endOfWeekUTC ws.
Proof. unfold TimeMoney.endOfWeekUTC, endOfWeekUTC. reflexivity. Qed.

(** The two definitions of [startOfWeekUTC] in the repository agree. *)
Lemma startOfWeekUTC_agree d :
  YearFromTime d < 0 \/ 99 < YearFromTime d ->
  - maxTime + 6 * msPerDay <= d <= maxTime - 7 * msPerDay ->
  TimeMoney.startOfWeekUTC (Some d) = startOfWeekUTC (Some d).
Proof.
  intros Hy Hr.
  rewrite startOfWeekUTC_value, TimeMoney_startOfWeekUTC_value by assumption.
  reflexivity.
Qed.

(** Every date from the epoch on has a year after 99. *)
Lemma YearFromTime_epoch t : 0 <= t -> 1969 <= YearFromTime t.
Proof.
  intros H. unfold YearFromTime, YearFromDay, Day, msPerDay.
  assert (0 <= t / 86400000) by (apply Z.div_pos; lia).
  assert (0 <= t / 86400000 * 400 / 146097) by (apply Z.div_pos; lia).
  repeat match goal with |- context [if ?b then _ else _] => destruct b end; lia.
Qed.

(** C8 (as amended). For every date whose UTC year is outside 0..99 and
    that lies a week inside the range of time values, [startOfWeekUTC]
    and [endOfWeekUTC] give the Monday-to-Sunday UTC week of the date:
    the start is a Monday at 00:00:00.000 UTC not after the date, the end
    is the start plus 6 days at 23:59:59.999 UTC, and the date is not
    after the end.  The same holds for the functions of
    utils/time-money.ts. *)
Theorem week_bucket_of_date (d : Z) :
  YearFromTime d < 0 \/ 99 < YearFromTime d ->
  - maxTime + 6 * msPerDay <= d <= maxTime - 7 * msPerDay ->
  week_bucket startOfWeekUTC endOfWeekUTC d /\
  week_bucket TimeMoney.startOfWeekUTC TimeMoney.endOfWeekUTC d.
Proof.
  intros Hy Hr.
  assert (W : week_bucket startOfWeekUTC endOfWeekUTC d).
  { pose proof (Day_bounds d) as Hb.
    pose proof (mondayOf_spec (Day d)) as [Hmon Hm].
    exists (mondayOf (Day d) * msPerDay),
      (mondayOf (Day d) * msPerDay + 6 * msPerDay + MakeTime 23 59 59 999).
    split; [apply startOfWeekUTC_value; assumption|].
    split; [apply endOfWeekUTC_value;
            [ms_lia | ms_lia | apply TimeWithinDay_mul]|].
    split; [unfold WeekDay; rewrite Day_mul; exact Hmon|].
    split; [apply TimeWithinDay_mul|].
    split; [ms_lia|]. split; [reflexivity | ms_lia]. }
  split; [exact W|].
  destruct W as (ws & we & H1 & H2 & H3).
  exists ws, we. rewrite startOfWeekUTC_agree by assumption.
  rewrite TimeMoney_endOfWeekUTC_eq.
  split; [exact H1|]. split; [exact H2 | exact H3].
Qed.

Lemma week_bucket_of_date_witness :
  (99 < YearFromTime 1709210096789) /\
  week_bucket startOfWeekUTC endOfWeekUTC 1709210096789.
Proof.
  assert (Hy : 99 < YearFromTime 1709210096789) by (vm_compute; reflexivity).
  assert (Hr : - maxTime + 6 * msPerDay <= 1709210096789 <= maxTime - 7 * msPerDay)
    by (unfold maxTime, msPerDay; lia).
  split; [exact Hy|].
  exact (proj1 (week_bucket_of_date 1709210096789 (or_intror Hy) Hr)).
Defined.

(** A date of the year 50: [Date.UTC] reads the year as 1950, and the
    week that comes out starts nineteen centuries after the date. *)
Lemma week_bucket_year50_counterexample :
  startOfWeekUTC (Some (-60574996800000)) = Some (-617155200000) /\
  ~ week_bucket startOfWeekUTC endOfWeekUTC (-60574996800000).
Proof.
  split; [vm_compute; reflexivity|].
  intros (ws & we & Hs & _ & _ & _ & Hle & _).
  vm_compute in Hs. injection Hs as <-. lia.
Qed.
(* ================================================================== *)
(** * Properties of the timesheet aggregator                           *)
(* ================================================================== *)

Section Aggregator.

Lemma fold_accStep_amountCents l acc :
  Acc.amountCents (fold_left accStep l acc)
  = Acc.amountCents acc + sumZ (map (fun i => orZ0 (Item.amountCents i)) l).
Proof.
  revert acc. induction l as [|i l IH]; intros acc; cbn [fold_left map sumZ fold_right].
  - lia.
  - rewrite IH. cbn [accStep Acc.amountCents]. fold (sumZ (map (fun i => orZ0 (Item.amountCents i)) l)). lia.
Qed.

Lemma fold_accStep_mileageCents l acc :
  Acc.mileageCents (fold_left accStep l acc)
  = Acc.mileageCents acc + sumZ (map (fun i => orZ0 (Item.mileageCents i)) l).
Proof.
  revert acc. induction l as [|i l IH]; intros acc; cbn [fold_left map sumZ fold_right].
  - lia.
  - rewrite IH. cbn [accStep Acc.mileageCents]. fold (sumZ (map (fun i => orZ0 (Item.mileageCents i)) l)). lia.
Qed.

Lemma fold_accStep_km l acc :
  (Acc.km (fold_left accStep l acc)
   == Acc.km acc + sumQ (map (fun i => orQ0 (Item.km i)) l))%Q.
Proof.
  revert acc. induction l as [|i l IH]; intros acc; cbn [fold_left map sumQ fold_right].
  - ring.
  - rewrite IH. cbn [accStep Acc.km]. fold (sumQ (map (fun i => orQ0 (Item.km i)) l)). ring.
Qed.

Lemma fold_accStep_hours l acc :
  (Acc.hours (fold_left accStep l acc) == Acc.hours acc + sumQ (map hoursOf l))%Q.
Proof.
  revert acc. induction l as [|i l IH]; intros acc; cbn [fold_left map sumQ fold_right].
  - ring.
  - rewrite IH. cbn [accStep Acc.hours]. fold (sumQ (map hoursOf l)).
    unfold hoursOf at 2. ring.
Qed.

Lemma hours_backfilled i : orQ0 (Item.hours (backfillHours i)) = hoursOf i.
Proof. unfold hoursOf. destruct i as [? ? ? ? ? [h|] ? ? ? ? ? ?]; reflexivity. Qed.

Lemma hoursOf_backfilled i : hoursOf (backfillHours i) = hoursOf i.
Proof. unfold hoursOf. destruct i as [? ? ? ? ? [h|] ? ? ? ? ? ?]; reflexivity. Qed.

Lemma sum_totalCents l :
  Forall item_consistent l ->
  sumZ (map Item.totalCents l)
  = sumZ (map (fun i => orZ0 (Item.amountCents i)) l)
    + sumZ (map (fun i => orZ0 (Item.mileageCents i)) l).
Proof.
  induction 1 as [|i l Hi _ IH]; cbn [map sumZ fold_right].
  - reflexivity.
  - fold (sumZ (map Item.totalCents l)).
    fold (sumZ (map (fun i => orZ0 (Item.amountCents i)) l)).
    fold (sumZ (map (fun i => orZ0 (Item.mileageCents i)) l)).
    rewrite IH, Hi. lia.
Qed.

Lemma buildItem_consistent a : item_consistent (buildItem a).
Proof. reflexivity. Qed.

Lemma backfillHours_consistent i :
  item_consistent i -> item_consistent (backfillHours i).
Proof. intros H. exact H. Qed.

Lemma backfillHours_shiftId i : Item.shiftId (backfillHours i) = Item.shiftId i.
Proof. reflexivity. Qed.


Lemma findIndexFrom_range {A} (p : A -> bool) l i :
  findIndexFrom p i l = -1 \/ i <= findIndexFrom p i l.
Proof.
  revert i. induction l as [|x l IH]; intros i; cbn [findIndexFrom].
  - left; reflexivity.
  - destruct (p x); [right; lia|].
    destruct (IH (i + 1)) as [E|E]; [left; exact E | right; lia].
Qed.

Lemma placeFrom_rec (item : Item.t) l i :
  0 <= i ->
  let idx := findIndexFrom (fun x => Nat.eqb (Item.shiftId x) (Item.shiftId item)) i l in
  (if 0 <=? idx then setNth (Z.to_nat (idx - i)) item l else l ++ [item])
  = placeRec item l.
Proof.
  revert i. induction l as [|x l IH]; intros i Hi; cbn [findIndexFrom placeRec].
  - reflexivity.
  - destruct (Nat.eqb (Item.shiftId x) (Item.shiftId item)).
    + destruct (Z.leb_spec 0 i); [|lia].
      rewrite Z.sub_diag. reflexivity.
    + specialize (IH (i + 1) ltac:(lia)). cbn zeta in IH.
      destruct (findIndexFrom_range
                  (fun x => Nat.eqb (Item.shiftId x) (Item.shiftId item)) l (i + 1))
        as [E|E].
      * rewrite E in *. cbn [Z.leb Z.compare] in *. cbn [app]. now rewrite IH.
      * destruct (Z.leb_spec 0 (findIndexFrom
                    (fun x => Nat.eqb (Item.shiftId x) (Item.shiftId item)) (i + 1) l));
          [|lia].
        rewrite <- IH.
        replace (Z.to_nat (findIndexFrom
                   (fun x => Nat.eqb (Item.shiftId x) (Item.shiftId item)) (i + 1) l - i))
          with (S (Z.to_nat (findIndexFrom
                   (fun x => Nat.eqb (Item.shiftId x) (Item.shiftId item)) (i + 1) l - (i + 1))))
          by lia.
        reflexivity.
Qed.

(** Replace-or-append as the code writes it, with [findIndex] and an
    assignment by index, is the recursive replace-or-append. *)
Lemma placeItem_rec item l : placeItem item l = placeRec item l.
Proof.
  unfold placeItem, findIndex.
  pose proof (placeFrom_rec item l 0 ltac:(lia)) as H. cbn zeta in H.
  rewrite Z.sub_0_r in H. exact H.
Qed.

Lemma placeRec_keys_in item l :
  In (Item.shiftId item) (map Item.shiftId l) ->
  map Item.shiftId (placeRec item l) = map Item.shiftId l.
Proof.
  induction l as [|x l IH]; cbn [map placeRec In]; [tauto|].
  intros H. destruct (Nat.eqb_spec (Item.shiftId x) (Item.shiftId item)) as [E|E].
  - cbn [map]. now rewrite E.
  - cbn [map]. rewrite IH; [reflexivity|]. destruct H; [contradiction | assumption].
Qed.

Lemma placeRec_keys_notin item l :
  ~ In (Item.shiftId item) (map Item.shiftId l) ->
  placeRec item l = l ++ [item].
Proof.
  induction l as [|x l IH]; cbn [map placeRec In]; [reflexivity|].
  intros H. destruct (Nat.eqb_spec (Item.shiftId x) (Item.shiftId item)) as [E|E].
  - tauto.
  - cbn [app]. rewrite IH by tauto. reflexivity.
Qed.

Lemma placeRec_In item l : In item (placeRec item l).
Proof.
  induction l as [|x l IH]; cbn [placeRec]; [now left|].
  destruct (Nat.eqb (Item.shiftId x) (Item.shiftId item)); [now left | now right].
Qed.

Lemma placeRec_Forall (P : Item.t -> Prop) item l :
  P item -> Forall P l -> Forall P (placeRec item l).
Proof.
  intros Hi. induction 1 as [|x l Hx Hl IH]; cbn [placeRec].
  - constructor; [assumption | constructor].
  - destruct (Nat.eqb (Item.shiftId x) (Item.shiftId item)); constructor; assumption.
Qed.

Lemma placeRec_NoDup item l :
  NoDup (map Item.shiftId l) -> NoDup (map Item.shiftId (placeRec item l)).
Proof.
  intros H.
  destruct (in_dec Nat.eq_dec (Item.shiftId item) (map Item.shiftId l)) as [Hin|Hn].
  - now rewrite placeRec_keys_in.
  - rewrite placeRec_keys_notin by assumption.
    rewrite map_app. cbn [map].
    apply NoDup_app; [assumption | constructor; [intros []|constructor] |].
    intros k Hk [<-|[]]. exact (Hn Hk).
Qed.

Lemma shiftIds_applyUpsert ts a we :
  shiftIds (applyUpsert ts a we)
  = map Item.shiftId (placeRec (buildItem a) (Timesheet.items ts)).
Proof.
  unfold shiftIds, applyUpsert. cbn [Timesheet.items].
  rewrite placeItem_rec, map_map. reflexivity.
Qed.

Lemma items_applyUpsert ts a we :
  Timesheet.items (applyUpsert ts a we)
  = map backfillHours (placeRec (buildItem a) (Timesheet.items ts)).
Proof. unfold applyUpsert. cbn [Timesheet.items]. now rewrite placeItem_rec. Qed.

(** The recomputation makes the totals the sums over the items, whatever
    the totals were before. *)
Lemma applyUpsert_totals ts a we :
  Forall item_consistent (Timesheet.items ts) ->
  totals_exact (applyUpsert ts a we).
Proof.
  intros Hc.
  assert (Hc' : Forall item_consistent (Timesheet.items (applyUpsert ts a we))).
  { rewrite items_applyUpsert. apply Forall_map.
    apply placeRec_Forall; [apply buildItem_consistent | exact Hc]. }
  unfold totals_exact.
  rewrite (sum_totalCents _ Hc').
  unfold applyUpsert in *. cbn [Timesheet.items Timesheet.totals Totals.totalCents
    Totals.hours Totals.km Totals.amountCents Totals.mileageCents] in *.
  unfold sumItems.
  rewrite fold_accStep_amountCents, fold_accStep_mileageCents.
  cbn [Acc.amountCents Acc.mileageCents].
  repeat split; try lia.
  - rewrite fold_accStep_hours. cbn [Acc.hours].
    rewrite !map_map.
    rewrite (map_ext (fun x => hoursOf (backfillHours x)) hoursOf hoursOf_backfilled).
    rewrite (map_ext (fun x => orQ0 (Item.hours (backfillHours x))) hoursOf hours_backfilled).
    ring.
  - rewrite fold_accStep_km. cbn [Acc.km]. ring.
Qed.

Lemma applyUpsert_ok ts a we :
  Forall item_consistent (Timesheet.items ts) ->
  NoDup (shiftIds ts) ->
  sheet_ok (applyUpsert ts a we).
Proof.
  intros Hc Hn. split; [|split].
  - rewrite items_applyUpsert. apply Forall_map.
    apply placeRec_Forall; [apply buildItem_consistent | exact Hc].
  - rewrite shiftIds_applyUpsert. now apply placeRec_NoDup.
  - now apply applyUpsert_totals.
Qed.

End Aggregator.
(* ================================================================== *)
(** * Collections and the service monad                                *)
(* ================================================================== *)

Ltac svc_unfold :=
  unfold bind, gets, modify, throwIf, ret, throw, freshId in *.

Section CollectionFacts.
Context {A : Type} (idOf : A -> ObjectId).

Lemma findById_In id l x : findById idOf id l = Some x -> In x l /\ idOf x = id.
Proof.
  unfold findById. intros H. apply find_some in H. destruct H as [Hin He].
  split; [exact Hin | now apply Nat.eqb_eq].
Qed.

Lemma saveDoc_Forall (P : A -> Prop) d l :
  P d -> Forall P l -> Forall P (saveDoc idOf d l).
Proof.
  intros Hd. induction 1 as [|x l Hx Hl IH]; cbn [saveDoc]; [constructor|].
  destruct (Nat.eqb (idOf x) (idOf d)); constructor; assumption.
Qed.

Lemma saveDoc_In_inv d l x : In x (saveDoc idOf d l) -> x = d \/ In x l.
Proof.
  induction l as [|y l IH]; cbn [saveDoc]; [intros []|].
  destruct (Nat.eqb (idOf y) (idOf d)); cbn [In]; intros [E|H]; auto.
  destruct (IH H); auto.
Qed.

Lemma saveDoc_In d l :
  (exists x, In x l /\ idOf x = idOf d) -> In d (saveDoc idOf d l).
Proof.
  intros (x & Hin & He). induction l as [|y l IH]; [destruct Hin|].
  cbn [saveDoc]. destruct (Nat.eqb_spec (idOf y) (idOf d)); [now left|].
  right. apply IH. destruct Hin; [congruence | assumption].
Qed.

Lemma findById_saveDoc_same id d l x :
  findById idOf id l = Some x -> idOf d = id ->
  findById idOf id (saveDoc idOf d l) = Some d.
Proof.
  unfold findById. intros H <-. induction l as [|y l IH]; [discriminate|].
  cbn [find saveDoc] in *.
  destruct (Nat.eqb_spec (idOf y) (idOf d)).
  - cbn [find]. now rewrite Nat.eqb_refl.
  - cbn [find]. destruct (Nat.eqb_spec (idOf y) (idOf d)); [contradiction|].
    now apply IH.
Qed.

Lemma findById_saveDoc_other id d l :
  idOf d <> id ->
  findById idOf id (saveDoc idOf d l) = findById idOf id l.
Proof.
  unfold findById. intros Hne. induction l as [|y l IH]; [reflexivity|].
  cbn [find saveDoc].
  destruct (Nat.eqb_spec (idOf y) (idOf d)) as [E|E].
  - cbn [find]. rewrite E.
    destruct (Nat.eqb_spec (idOf d) id); [contradiction | reflexivity].
  - cbn [find]. now rewrite IH.
Qed.

Lemma findById_app_some id l l' x :
  findById idOf id l = Some x -> findById idOf id (l ++ l') = Some x.
Proof.
  unfold findById. induction l as [|y l IH]; [discriminate|].
  cbn [find app]. destruct (Nat.eqb (idOf y) id); auto.
Qed.

Lemma findById_app_none id l l' :
  findById idOf id l = None ->
  findById idOf id (l ++ l') = findById idOf id l'.
Proof.
  unfold findById. induction l as [|y l IH]; [reflexivity|].
  cbn [find app]. destruct (Nat.eqb (idOf y) id); [discriminate | auto].
Qed.

Lemma findById_fresh id l n :
  Forall (fun x => (idOf x < n)%nat) l -> (n <= id)%nat ->
  findById idOf id l = None.
Proof.
  unfold findById. induction 1 as [|y l Hy _ IH]; intros Hn; [reflexivity|].
  cbn [find]. destruct (Nat.eqb_spec (idOf y) id); [lia | auto].
Qed.

Lemma saveDoc_length d l : List.length (saveDoc idOf d l) = List.length l.
Proof.
  induction l as [|y l IH]; [reflexivity|]. cbn [saveDoc].
  destruct (Nat.eqb (idOf y) (idOf d)); cbn [List.length]; congruence.
Qed.

End CollectionFacts.

(* ------------------------------------------------------------------ *)
(** ** The upsert on the store                                         *)
(* ------------------------------------------------------------------ *)

Lemma findOrInsertTimesheet_spec tid ws we st :
  exists ts0 st0,
    findOrInsertTimesheet tid ws we st = (inr ts0, st0) /\
    sameCore st st0 /\ (nextId st <= nextId st0)%nat /\
    In ts0 (timesheets st0) /\
    ((st0 = st) \/
     (ts0 = blankSheet (nextId st) tid ws we /\
      timesheets st0 = timesheets st ++ [ts0])).
Proof.
  unfold findOrInsertTimesheet. svc_unfold.
  destruct (find _ (timesheets st)) as [ts0|] eqn:F.
  - exists ts0, st. split; [reflexivity|]. split; [repeat split|].
    split; [lia|]. split; [|now left].
    apply find_some in F. tauto.
  - eexists _, _. split; [reflexivity|]. cbn.
    split; [repeat split|]. split; [lia|].
    split; [apply in_or_app; right; now left|].
    right. split; reflexivity.
Qed.

(** How [upsertTimesheetForShift] ends: it throws before touching the
    store when the week of the date is not a date, and otherwise saves
    and returns the recomputed timesheet. *)
Lemma upsertTimesheetForShift_spec a st :
  (exists e, upsertTimesheetForShift a st = (inl e, st) /\
     (startOfWeekUTC (Some (UpsertArgs.date a)) = None \/
      endOfWeekUTC (startOfWeekUTC (Some (UpsertArgs.date a))) = None)) \/
  (exists ws we ts0 st0 st',
     startOfWeekUTC (Some (UpsertArgs.date a)) = Some ws /\
     endOfWeekUTC (Some ws) = Some we /\
     findOrInsertTimesheet (UpsertArgs.trainerId a) ws we st = (inr ts0, st0) /\
     upsertTimesheetForShift a st = (inr (applyUpsert ts0 a we), st') /\
     sameCore st st' /\ (nextId st <= nextId st')%nat /\
     timesheets st' = saveDoc Timesheet._id (applyUpsert ts0 a we) (timesheets st0) /\
     In ts0 (timesheets st0) /\
     (st0 = st \/
      (ts0 = blankSheet (nextId st) (UpsertArgs.trainerId a) ws we /\
       timesheets st0 = timesheets st ++ [ts0]))).
Proof.
  unfold upsertTimesheetForShift.
  destruct (startOfWeekUTC (Some (UpsertArgs.date a))) as [ws|] eqn:Hws.
  2:{ left. eexists. split; [reflexivity | now left]. }
  destruct (endOfWeekUTC (Some ws)) as [we|] eqn:Hwe.
  2:{ left. eexists. split; [reflexivity | now right]. }
  right.
  destruct (findOrInsertTimesheet_spec (UpsertArgs.trainerId a) ws we st)
    as (ts0 & st0 & Hf & Hc & Hn & Hin & Hcase).
  exists ws, we, ts0, st0.
  unfold bind at 1. rewrite Hf. svc_unfold. cbn.
  eexists. repeat split; try reflexivity; try apply Hc; try assumption.
Qed.

Lemma blankSheet_ok id tid ws we : sheet_ok (blankSheet id tid ws we).
Proof.
  unfold sheet_ok, totals_exact, shiftIds. cbn.
  repeat split; try constructor; reflexivity.
Qed.

Lemma upsert_sheets_ok a st :
  Forall sheet_ok (timesheets st) ->
  Forall sheet_ok (timesheets (snd (upsertTimesheetForShift a st))) /\
  (forall ts, fst (upsertTimesheetForShift a st) = inr ts ->
              sheet_ok ts /\ In ts (timesheets (snd (upsertTimesheetForShift a st)))).
Proof.
  intros Hok.
  destruct (upsertTimesheetForShift_spec a st)
    as [(e & -> & _) | (ws & we & ts0 & st0 & st' & _ & _ & _ & -> & _ & _ & Hts & Hin & Hcase)].
  - cbn. split; [exact Hok | discriminate].
  - cbn [fst snd].
    assert (Hok0 : Forall sheet_ok (timesheets st0)).
    { destruct Hcase as [-> | [-> ->]]; [exact Hok|].
      apply Forall_app. split; [exact Hok|].
      constructor; [apply blankSheet_ok | constructor]. }
    assert (H0 : sheet_ok ts0).
    { rewrite Forall_forall in Hok0. now apply Hok0. }
    assert (H1 : sheet_ok (applyUpsert ts0 a we)).
    { destruct H0 as (Hc & Hn & _). now apply applyUpsert_ok. }
    split.
    + rewrite Hts. now apply saveDoc_Forall.
    + intros ts [= <-]. split; [exact H1|].
      rewrite Hts. apply saveDoc_In. exists ts0. split; [exact Hin | reflexivity].
Qed.

(* ------------------------------------------------------------------ *)
(** ** Computations that only read                                     *)
(* ------------------------------------------------------------------ *)

Lemma readonly_ret {A} (a : A) : readonly (ret a).
Proof. intros s. reflexivity. Qed.

Lemma readonly_throw {A} e : readonly (@throw A e).
Proof. intros s. reflexivity. Qed.

Lemma readonly_gets {A} (f : Store -> A) : readonly (gets f).
Proof. intros s. reflexivity. Qed.

Lemma readonly_throwIf c e : readonly (throwIf c e).
Proof. intros s. unfold throwIf. destruct c; reflexivity. Qed.

Lemma readonly_bind {A B} (c : M A) (k : A -> M B) :
  readonly c -> (forall a, readonly (k a)) -> readonly (bind c k).
Proof.
  intros Hc Hk s. unfold bind. specialize (Hc s).
  destruct (c s) as [[e|a] s']; cbn in *; subst; [reflexivity | apply Hk].
Qed.

(** Binding a computation that only reads: the continuation runs on the
    same store. *)
Lemma bind_readonly {A B} (c : M A) (k : A -> M B) s :
  readonly c ->
  bind c k s = match fst (c s) with
               | inr a => k a s
               | inl e => (inl e, s)
               end.
Proof.
  intros Hc. unfold bind. specialize (Hc s).
  destruct (c s) as [[e|a] s']; cbn in *; subst; reflexivity.
Qed.

Lemma bind_inr {A B} (c : M A) (k : A -> M B) s a s' :
  c s = (inr a, s') -> bind c k s = k a s'.
Proof. intros H. unfold bind. now rewrite H. Qed.

Lemma bind_inl {A B} (c : M A) (k : A -> M B) s e s' :
  c s = (inl e, s') -> bind c k s = (inl e, s').
Proof. intros H. unfold bind. now rewrite H. Qed.

Lemma throwIf_false e s : throwIf false e s = (inr tt, s).
Proof. reflexivity. Qed.

Lemma throwIf_true e s : throwIf true e s = (inl e, s).
Proof. reflexivity. Qed.

Create HintDb readonly.

#[local] Hint Resolve readonly_ret readonly_throw readonly_gets
  readonly_throwIf : readonly.

Lemma readonly_validateRequestWindow now s e : readonly (validateRequestWindow now s e).
Proof.
  unfold validateRequestWindow. destruct s; [destruct e|]; auto with readonly.
  repeat (apply readonly_bind; [auto with readonly | intros _]).
  auto with readonly.
Qed.

Lemma readonly_ensureParticipantOwnership p u role :
  readonly (ensureParticipantOwnership p u role).
Proof.
  unfold ensureParticipantOwnership. apply readonly_bind.
  - unfold User_findById. destruct p; auto with readonly.
  - intros [x|]; [|auto with readonly].
    apply readonly_bind; [auto with readonly | intros _; auto with readonly].
Qed.

Lemma readonly_newObjectId i : readonly (newObjectId i).
Proof. destruct i; cbn; auto with readonly. Qed.

Lemma readonly_mapM {A B} (f : A -> M B) l :
  (forall a, readonly (f a)) -> readonly (mapM f l).
Proof.
  intros Hf. induction l as [|x l IH]; cbn [mapM]; [auto with readonly|].
  apply readonly_bind; [apply Hf | intros y].
  apply readonly_bind; [exact IH | intros ys; auto with readonly].
Qed.

Lemma readonly_loadShiftRequest o : readonly (loadShiftRequest o).
Proof.
  unfold loadShiftRequest. apply readonly_bind; [auto with readonly|].
  intros [r|]; auto with readonly.
Qed.

Lemma readonly_loadTrainerOfUser u : readonly (loadTrainerOfUser u).
Proof.
  unfold loadTrainerOfUser. apply readonly_bind; [auto with readonly|].
  intros [r|]; auto with readonly.
Qed.

#[local] Hint Resolve readonly_validateRequestWindow
  readonly_ensureParticipantOwnership readonly_newObjectId
  readonly_loadShiftRequest readonly_loadTrainerOfUser : readonly.
(* ================================================================== *)
(** * Timesheet workflow                                               *)
(* ================================================================== *)

Lemma loadTimesheet_found o ts st :
  findById Timesheet._id o (timesheets st) = Some ts ->
  loadTimesheet (GoodId o) st = (inr ts, st).
Proof. intros H. unfold loadTimesheet. svc_unfold. now rewrite H. Qed.

Lemma saveTimesheet_found o ts ts' st :
  findById Timesheet._id o (timesheets st) = Some ts ->
  Timesheet._id ts' = o ->
  findById Timesheet._id o (timesheets (snd (saveTimesheet ts' st))) = Some ts'.
Proof.
  intros H E. unfold saveTimesheet, modify. cbn.
  now apply findById_saveDoc_same with (x := ts).
Qed.

Lemma submitTimesheet_spec o u ts st :
  findById Timesheet._id o (timesheets st) = Some ts ->
  exists st',
    submitTimesheet (GoodId o) u st = (inr (setTimesheetStatus T_SUBMITTED ts), st') /\
    findById Timesheet._id o (timesheets st')
    = Some (setTimesheetStatus T_SUBMITTED ts).
Proof.
  intros H. pose proof (findById_In _ _ _ _ H) as [_ Hid].
  unfold submitTimesheet.
  rewrite (bind_inr _ _ _ _ _ (loadTimesheet_found _ _ _ H)).
  unfold saveTimesheet. svc_unfold. cbn.
  eexists. split; [reflexivity|]. cbn.
  apply findById_saveDoc_same with (x := ts); [exact H | exact Hid].
Qed.

Lemma approveTimesheet_spec o u ts st :
  findById Timesheet._id o (timesheets st) = Some ts ->
  if canApprove (Timesheet.status ts)
  then exists st',
      approveTimesheet (GoodId o) u st = (inr (setTimesheetStatus T_APPROVED ts), st') /\
      findById Timesheet._id o (timesheets st')
      = Some (setTimesheetStatus T_APPROVED ts)
  else approveTimesheet (GoodId o) u st
       = (inl (AppError "Only SUBMITTED/REOPENED can be approved" 409), st).
Proof.
  intros H. pose proof (findById_In _ _ _ _ H) as [_ Hid].
  unfold approveTimesheet.
  rewrite (bind_inr _ _ _ _ _ (loadTimesheet_found _ _ _ H)).
  unfold saveTimesheet. svc_unfold.
  destruct (Timesheet.status ts) eqn:Es; cbn; try reflexivity;
    (eexists; split; [reflexivity|]; cbn;
     apply findById_saveDoc_same with (x := ts); [exact H | exact Hid]).
Qed.

Lemma reopenTimesheet_spec now o u reason ts st :
  findById Timesheet._id o (timesheets st) = Some ts ->
  if canReopen (Timesheet.status ts)
  then exists ts' st',
      reopenTimesheet now (GoodId o) u reason st = (inr ts', st') /\
      Timesheet.status ts' = T_REOPENED /\
      Timesheet.audit ts' = Timesheet.audit ts ++ [Audit.mk u now reason] /\
      Timesheet.items ts' = Timesheet.items ts /\
      Timesheet.totals ts' = Timesheet.totals ts /\
      findById Timesheet._id o (timesheets st') = Some ts'
  else reopenTimesheet now (GoodId o) u reason st
       = (inl (AppError "Only SUBMITTED/APPROVED can be reopened" 409), st).
Proof.
  intros H. pose proof (findById_In _ _ _ _ H) as [_ Hid].
  unfold reopenTimesheet.
  rewrite (bind_inr _ _ _ _ _ (loadTimesheet_found _ _ _ H)).
  unfold saveTimesheet. svc_unfold.
  destruct (Timesheet.status ts) eqn:Es; cbn; try reflexivity;
    (eexists _, _; split; [reflexivity|]; cbn; repeat (split; [reflexivity|]);
     apply findById_saveDoc_same with (x := ts); [exact H | exact Hid]).
Qed.



(* ================================================================== *)
(** * Shift requests: creation and approval                            *)
(* ================================================================== *)

Ltac step_ro :=
  rewrite bind_readonly by auto using readonly_mapM with readonly;
  match goal with
  | |- context [fst (?c ?s)] =>
      let E := fresh "E" in destruct (fst (c s)) eqn:E
  end.

Lemma createShiftRequest_cases now p role st :
  (exists e, createShiftRequest now p role st = (inl e, st)) \/
  (exists created,
     createShiftRequest now p role st
     = (inr created,
        mkStore (users st) (trainers st) (participants st)
                (shiftRequests st ++ [created]) (shifts st) (timesheets st)
                (S (nextId st))) /\
     ShiftRequest._id created = nextId st /\
     ShiftRequest.status created = PENDING_ADMIN /\
     ShiftRequest.assignedTrainerId created = None /\
     ShiftRequest.linkedShiftId created = None).
Proof.
  unfold createShiftRequest.
  step_ro; [left; eauto|].
  step_ro; [left; eauto|].
  step_ro; [left; eauto|].
  step_ro; [left; eauto|].
  step_ro; [left; eauto|].
  step_ro; [left; eauto|].
  right. svc_unfold. cbn. eexists. split; [reflexivity|]. cbn. auto.
Qed.

Lemma min_duration_iff d :
  Qle_bool MIN_MINUTES (inject_Z d / inject_Z (1000 * 60)) = true
  <-> 30 * msPerMinute <= d.
Proof.
  rewrite Qle_bool_iff. unfold MIN_MINUTES, Qle, Qdiv, Qmult, Qinv, inject_Z, msPerMinute.
  cbn. lia.
Qed.

Lemma validateRequestWindow_ok now s e st :
  windowOk now s e -> validateRequestWindow now (Some s) (Some e) st = (inr tt, st).
Proof.
  intros (H1 & H2 & H3). unfold validateRequestWindow. svc_unfold.
  destruct (Z.leb_spec e s); [lia|].
  destruct (Z.ltb_spec e now); [lia|].
  apply min_duration_iff in H3. rewrite H3. reflexivity.
Qed.

Lemma validateRequestWindow_bad now s e st :
  e <= s \/ e < now \/ e - s < 30 * msPerMinute ->
  exists msg, validateRequestWindow now (Some s) (Some e) st = (inl (AppError msg 400), st).
Proof.
  intros H. unfold validateRequestWindow. svc_unfold.
  destruct (Z.leb_spec e s); [eexists; reflexivity|].
  destruct (Z.ltb_spec e now); [eexists; reflexivity|].
  destruct (Qle_bool MIN_MINUTES (inject_Z (e - s) / inject_Z (1000 * 60))) eqn:E.
  - apply min_duration_iff in E. lia.
  - eexists; reflexivity.
Qed.

Lemma mapM_newObjectId_ok l st :
  Forall (fun i => isValidObjectId i = true) l ->
  exists ids, mapM newObjectId l st = (inr ids, st).
Proof.
  induction 1 as [|i l Hi _ [ids IH]]; cbn [mapM].
  - eexists; reflexivity.
  - destruct i as [raw|o]; [discriminate|].
    svc_unfold. cbn. rewrite IH. eexists; reflexivity.
Qed.

(** C5 (as amended). A payload that carries every required field
    (non-empty participant, requester and service, a start and an end
    that are dates) with well-formed ids, whose window has
    start < end, end >= now and at least 30 minutes, whose participant
    resolves and whose requester is the participant or an admin, is
    accepted: the request is stored with status PENDING_ADMIN.  And every
    payload whose dates have start >= end, an end in the past or less
    than 30 minutes fails with status 400, the store unchanged. *)
Theorem createShiftRequest_window (now : Z) (p : CreateShiftRequestInput.t)
  (role : option Role) (st : Store) (s e : Z) :
  CreateShiftRequestInput.start p = DateAt s ->
  CreateShiftRequestInput.end_ p = DateAt e ->
  (windowOk now s e ->
   forall pid rq u,
     CreateShiftRequestInput.participantId p = GoodId pid ->
     CreateShiftRequestInput.requestedBy p = GoodId rq ->
     truthyStr (CreateShiftRequestInput.service p) = true ->
     Forall (fun i => truthyId i = true -> isValidObjectId i = true)
       (match CreateShiftRequestInput.preferredTrainerIds p with
        | Some l => l | None => [] end) ->
     findById User._id pid (users st) = Some u ->
     role = Some ADMIN \/ rq = pid ->
     exists created st',
       createShiftRequest now p role st = (inr created, st') /\
       ShiftRequest.status created = PENDING_ADMIN /\
       ShiftRequest.start created = s /\ ShiftRequest.end_ created = e /\
       ShiftRequest.participantId created = pid /\
       shiftRequests st' = shiftRequests st ++ [created]) /\
  (e <= s \/ e < now \/ e - s < 30 * msPerMinute ->
   exists msg, createShiftRequest now p role st = (inl (AppError msg 400), st)).
Proof.
  intros Hs He. split.
  - intros Hw pid rq u Hp Hr Hsv Hpref Hu Hperm.
    unfold createShiftRequest. rewrite Hs, He, Hp, Hr, Hsv. cbn [truthyId truthyDate negb orb newDate].
    rewrite bind_readonly by auto with readonly. cbn [throwIf ret fst].
    rewrite bind_readonly by auto with readonly.
    rewrite (validateRequestWindow_ok _ _ _ _ Hw). cbn [fst].
    rewrite bind_readonly by auto with readonly.
    assert (Ho : ensureParticipantOwnership (GoodId pid) (GoodId rq) role st = (inr u, st)).
    { unfold ensureParticipantOwnership, User_findById. svc_unfold. rewrite Hu.
      pose proof (findById_In _ _ _ _ Hu) as [_ Hid]. rewrite Hid.
      destruct Hperm as [-> | ->]; [reflexivity|].
      rewrite Nat.eqb_refl. destruct role as [[]|]; reflexivity. }
    rewrite Ho. cbn [fst].
    rewrite bind_readonly by auto using readonly_mapM with readonly.
    destruct (mapM_newObjectId_ok
                (filter truthyId
                   (match CreateShiftRequestInput.preferredTrainerIds p with
                    | Some l => l | None => [] end)) st) as [ids Hids].
    { apply Forall_forall. intros i Hi. apply filter_In in Hi as [Hin Ht].
      rewrite Forall_forall in Hpref. now apply Hpref. }
    rewrite Hids. cbn [fst]. svc_unfold. cbn.
    eexists _, _. split; [reflexivity|]. cbn. auto.
  - intros Hbad. unfold createShiftRequest. rewrite Hs, He.
    rewrite bind_readonly by auto with readonly.
    destruct (negb (truthyId (CreateShiftRequestInput.participantId p))
              || negb (truthyId (CreateShiftRequestInput.requestedBy p))
              || negb (truthyStr (CreateShiftRequestInput.service p))
              || negb (truthyDate (DateAt s)) || negb (truthyDate (DateAt e))).
    + eexists. reflexivity.
    + cbn [throwIf ret fst newDate].
      rewrite bind_readonly by auto with readonly.
      destruct (validateRequestWindow_bad now s e st Hbad) as [msg Hv].
      rewrite Hv. cbn [fst]. eexists. reflexivity.
Qed.

Lemma createShiftRequest_window_witness :
  exists created st',
    createShiftRequest 1709200000000 (alicePayload "PersonalCare")
      (Some PARTICIPANT) aliceStore = (inr created, st') /\
    ShiftRequest.status created = PENDING_ADMIN.
Proof.
  destruct (createShiftRequest_window 1709200000000 (alicePayload "PersonalCare")
              (Some PARTICIPANT) aliceStore 1709283600000 1709287200000
              eq_refl eq_refl) as [Hok _].
  destruct (Hok ltac:(unfold windowOk, msPerMinute; lia) 1%nat 1%nat
              (User.mk 1%nat "alice@example.org" PARTICIPANT U_ACTIVE)
              eq_refl eq_refl eq_refl ltac:(constructor) eq_refl
              ltac:(right; reflexivity))
    as (created & st' & Hc & Hst & _).
  exists created, st'. split; [exact Hc | exact Hst].
Defined.

(** A payload with a valid window, a resolvable participant and a
    permitted requester, and an empty service code: the guard on the
    required fields rejects it. *)
Lemma createShiftRequest_empty_service_counterexample :
  windowOk 1709200000000 1709283600000 1709287200000 /\
  findById User._id 1%nat (users aliceStore)
  = Some (User.mk 1%nat "alice@example.org" PARTICIPANT U_ACTIVE) /\
  createShiftRequest 1709200000000 (alicePayload "") (Some PARTICIPANT) aliceStore
  = (inl (AppError "participantId, service, start and end are required" 400),
     aliceStore).
Proof.
  split; [unfold windowOk, msPerMinute; lia|]. split; reflexivity.
Qed.

(* ------------------------------------------------------------------ *)
(** ** Approval                                                        *)
(* ------------------------------------------------------------------ *)

Lemma loadShiftRequest_found o r st :
  findById ShiftRequest._id o (shiftRequests st) = Some r ->
  loadShiftRequest o st = (inr r, st).
Proof. intros H. unfold loadShiftRequest. svc_unfold. now rewrite H. Qed.

Lemma loadShiftRequest_inv o r st st' :
  loadShiftRequest o st = (inr r, st') ->
  st' = st /\ findById ShiftRequest._id o (shiftRequests st) = Some r.
Proof.
  unfold loadShiftRequest. svc_unfold.
  destruct (findById ShiftRequest._id o (shiftRequests st)); intros [= <- <-]; auto.
Qed.

(** The code's eligibility test is the one of the specification. *)
Lemma notEligible_iff st trainer :
  (negb (match findById User._id (Trainer.userId trainer) (users st) with
         | Some u => Role_beq (User.role u) TRAINER
         | None => false
         end)
   || (match findById User._id (Trainer.userId trainer) (users st) with
       | Some u => UserStatus_beq (User.status u) U_BLOCKED
       | None => false
       end)
   || String.eqb (Trainer.status trainer) "PENDING") = true
  <-> notEligible st trainer.
Proof.
  unfold notEligible.
  destruct (findById User._id (Trainer.userId trainer) (users st)) as [u|].
  - destruct (String.eqb_spec (Trainer.status trainer) "PENDING") as [E|E].
    + rewrite orb_true_r. tauto.
    + rewrite orb_false_r.
      destruct (User.role u), (User.status u); cbn;
        (split; [intros H; try discriminate H; left; (left; discriminate) || (right; reflexivity)
                | intros [[H|H]|H]; try reflexivity; congruence]).
  - cbn. tauto.
Qed.

(** Every way [approveAndAssign] can end. *)
Lemma approveAndAssign_cases now requestId trainerId adminUserId st :
  (exists e, approveAndAssign now requestId trainerId adminUserId st = (inl e, st)) \/
  (exists rid tid aid r,
     requestId = GoodId rid /\ trainerId = GoodId tid /\ adminUserId = GoodId aid /\
     findById ShiftRequest._id rid (shiftRequests st) = Some r /\
     ShiftRequest.status r = PENDING_ADMIN /\
     approveAndAssign now requestId trainerId adminUserId st
     = (inr (approveFields tid aid now r),
        setShiftRequests (saveDoc ShiftRequest._id (approveFields tid aid now r)) st)).
Proof.
  unfold approveAndAssign.
  destruct requestId as [?|rid]; [left; eexists; reflexivity|].
  destruct trainerId as [?|tid]; [left; eexists; reflexivity|].
  destruct adminUserId as [?|aid]; [left; eexists; reflexivity|].
  rewrite bind_readonly by auto with readonly.
  destruct (loadShiftRequest rid st) as [[e|r] st0] eqn:L; cbn [fst]; [left; eexists; reflexivity|].
  apply loadShiftRequest_inv in L as [-> L].
  rewrite bind_readonly by auto with readonly.
  destruct (ShiftRequestStatus_beq (ShiftRequest.status r) PENDING_ADMIN) eqn:Es;
    cbn [negb throwIf throw ret fst]; [|left; eexists; reflexivity].
  rewrite bind_readonly by auto with readonly. cbn [gets fst].
  destruct (findById Trainer._id tid (trainers st)) as [trainer|]; [|left; eexists; reflexivity].
  rewrite bind_readonly by auto with readonly. cbn [gets fst].
  rewrite bind_readonly by auto with readonly.
  match goal with |- context [throwIf ?c _] => destruct c end;
    cbn [throwIf throw ret fst]; [left; eexists; reflexivity|].
  rewrite bind_readonly by auto with readonly. cbn [gets fst].
  match goal with |- context [find ?p ?l] => destruct (find p l) end; [|left; eexists; reflexivity].
  right. exists rid, tid, aid, r. repeat (split; [reflexivity|]).
  split; [exact L|]. split.
  - destruct (ShiftRequest.status r); try discriminate; reflexivity.
  - unfold saveShiftRequest. svc_unfold. reflexivity.
Qed.

Lemma approveAndAssign_not_pending now rid tid aid r st :
  findById ShiftRequest._id rid (shiftRequests st) = Some r ->
  ShiftRequest.status r <> PENDING_ADMIN ->
  approveAndAssign now (GoodId rid) (GoodId tid) (GoodId aid) st
  = (inl (AppError "Only PENDING_ADMIN requests can be approved" 409), st).
Proof.
  intros H Hs. unfold approveAndAssign.
  rewrite (bind_inr _ _ _ _ _ (loadShiftRequest_found _ _ _ H)).
  destruct (ShiftRequest.status r); try congruence; reflexivity.
Qed.

Lemma approveAndAssign_not_eligible now rid tid aid r trainer st :
  findById ShiftRequest._id rid (shiftRequests st) = Some r ->
  ShiftRequest.status r = PENDING_ADMIN ->
  findById Trainer._id tid (trainers st) = Some trainer ->
  notEligible st trainer ->
  approveAndAssign now (GoodId rid) (GoodId tid) (GoodId aid) st
  = (inl (AppError "Trainer is not eligible for assignment" 400), st).
Proof.
  intros H Hs Ht He. apply notEligible_iff in He. unfold approveAndAssign.
  rewrite (bind_inr _ _ _ _ _ (loadShiftRequest_found _ _ _ H)).
  rewrite Hs. cbn [ShiftRequestStatus_beq negb throwIf].
  svc_unfold. rewrite Ht. rewrite He. reflexivity.
Qed.


(* ================================================================== *)
(** * Clock-in and clock-out                                           *)
(* ================================================================== *)

Lemma loadTrainerOfUser_inv uid t st st' :
  loadTrainerOfUser uid st = (inr t, st') ->
  st' = st /\
  find (fun x => Nat.eqb (Trainer.userId x) uid) (trainers st) = Some t.
Proof.
  unfold loadTrainerOfUser. svc_unfold.
  destruct (find _ (trainers st)); intros [= <- <-]; auto.
Qed.

Lemma loadTrainerOfUser_found uid t st :
  find (fun x => Nat.eqb (Trainer.userId x) uid) (trainers st) = Some t ->
  loadTrainerOfUser uid st = (inr t, st).
Proof. intros H. unfold loadTrainerOfUser. svc_unfold. now rewrite H. Qed.

(** The test of the duplicate guard finds a shift exactly when one is in
    progress. *)
Lemma find_active_iff rid st :
  (exists sh, find (fun sh => Nat.eqb (Shift.shiftRequestId sh) rid
                              && ShiftStatus_beq (Shift.status sh) S_IN_PROGRESS)
                   (shifts st) = Some sh)
  <-> hasActiveShift rid st.
Proof.
  unfold hasActiveShift. split.
  - intros [sh H]. apply find_some in H as [Hin Hp].
    apply andb_prop in Hp as [H1 H2]. exists sh. split; [exact Hin|].
    split; [now apply Nat.eqb_eq|].
    destruct (Shift.status sh); try discriminate; reflexivity.
  - intros (sh & Hin & H1 & H2).
    destruct (find _ (shifts st)) as [x|] eqn:F; [eauto|].
    exfalso. apply (find_none _ _ F) in Hin.
    rewrite H1, H2, Nat.eqb_refl in Hin. discriminate Hin.
Qed.

(** Every way [clockInShiftAsTrainer] can end: it throws with the store
    untouched, or it returns the created shift. *)
Lemma clockIn_cases now trainerUserId shiftRequestId st :
  (exists e, clockInShiftAsTrainer now trainerUserId shiftRequestId st = (inl e, st)) \/
  (exists uid rid trainer r,
     trainerUserId = GoodId uid /\ shiftRequestId = GoodId rid /\
     find (fun x => Nat.eqb (Trainer.userId x) uid) (trainers st) = Some trainer /\
     findById ShiftRequest._id rid (shiftRequests st) = Some r /\
     notAssignedTo r trainer = false /\
     ShiftRequest.status r = APPROVED /\
     ~ hasActiveShift rid st /\
     ShiftRequest.start r < ShiftRequest.end_ r /\
     clockInShiftAsTrainer now trainerUserId shiftRequestId st
     = (inr (clockedInShift now r trainer (nextId st)), afterClockIn now r trainer st)).
Proof.
  unfold clockInShiftAsTrainer.
  destruct trainerUserId as [?|uid]; [left; eexists; reflexivity|].
  destruct shiftRequestId as [?|rid]; [left; eexists; reflexivity|].
  rewrite bind_readonly by auto with readonly.
  destruct (loadTrainerOfUser uid st) as [[e|trainer] st0] eqn:Lt; cbn [fst];
    [left; eexists; reflexivity|].
  apply loadTrainerOfUser_inv in Lt as [-> Lt].
  rewrite bind_readonly by auto with readonly.
  destruct (loadShiftRequest rid st) as [[e|r] st0] eqn:L; cbn [fst];
    [left; eexists; reflexivity|].
  apply loadShiftRequest_inv in L as [-> L].
  pose proof (findById_In _ _ _ _ L) as [_ Hid].
  rewrite bind_readonly by auto with readonly.
  destruct (notAssignedTo r trainer) eqn:Ha; cbn [throwIf throw ret fst];
    [left; eexists; reflexivity|].
  rewrite bind_readonly by auto with readonly.
  destruct (ShiftRequestStatus_beq (ShiftRequest.status r) APPROVED) eqn:Es;
    cbn [negb throwIf throw ret fst]; [|left; eexists; reflexivity].
  rewrite bind_readonly by auto with readonly. cbn [gets fst].
  destruct (find (fun sh => Nat.eqb (Shift.shiftRequestId sh) (ShiftRequest._id r)
                            && ShiftStatus_beq (Shift.status sh) S_IN_PROGRESS)
                 (shifts st)) as [x|] eqn:F.
  { rewrite bind_readonly by auto with readonly. cbn [throwIf throw fst].
    left; eexists; reflexivity. }
  rewrite bind_readonly by auto with readonly. cbn [throwIf ret fst].
  rewrite bind_readonly by auto with readonly.
  destruct ((ShiftRequest.start r =? 0) || (ShiftRequest.end_ r =? 0)
            || (ShiftRequest.end_ r <=? ShiftRequest.start r)) eqn:Ew;
    cbn [throwIf throw ret fst]; [left; eexists; reflexivity|].
  right. exists uid, rid, trainer, r.
  repeat (split; [first [reflexivity | assumption]|]).
  split; [destruct (ShiftRequest.status r); try discriminate; reflexivity|].
  split.
  { intros Hact. apply find_active_iff in Hact as [sh Hsh].
    rewrite Hid in F. congruence. }
  split.
  { apply orb_false_iff in Ew as [_ Ew]. now apply Z.leb_gt in Ew. }
  unfold saveShiftRequest. svc_unfold. reflexivity.
Qed.

Lemma find_app_some {A} (p : A -> bool) l l' x :
  find p l = Some x -> find p (l ++ l') = Some x.
Proof.
  induction l as [|y l IH]; [discriminate|]. cbn [find app].
  destruct (p y); auto.
Qed.

(** C9. A clock-in that returns stores the request with [linkedShiftId]
    set to the created shift; the status of the request is APPROVED
    before and after, every other field of the request is as it was, and
    no other request is touched. *)
Theorem clockIn_links_request (now : Z) (trainerUserId shiftRequestId : IdStr)
  (st st' : Store) (shift : Shift.t) :
  clockInShiftAsTrainer now trainerUserId shiftRequestId st = (inr shift, st') ->
  exists rid r r',
    shiftRequestId = GoodId rid /\
    findById ShiftRequest._id rid (shiftRequests st) = Some r /\
    findById ShiftRequest._id rid (shiftRequests st') = Some r' /\
    In shift (shifts st') /\ Shift.shiftRequestId shift = rid /\
    ShiftRequest.linkedShiftId r' = Some (Shift._id shift) /\
    ShiftRequest.status r = APPROVED /\ ShiftRequest.status r' = APPROVED /\
    ShiftRequest._id r' = ShiftRequest._id r /\
    ShiftRequest.participantId r' = ShiftRequest.participantId r /\
    ShiftRequest.requestedBy r' = ShiftRequest.requestedBy r /\
    ShiftRequest.service r' = ShiftRequest.service r /\
    ShiftRequest.start r' = ShiftRequest.start r /\
    ShiftRequest.end_ r' = ShiftRequest.end_ r /\
    ShiftRequest.notes r' = ShiftRequest.notes r /\
    ShiftRequest.preferredTrainerIds r' = ShiftRequest.preferredTrainerIds r /\
    ShiftRequest.assignedTrainerId r' = ShiftRequest.assignedTrainerId r /\
    ShiftRequest.adminComment r' = ShiftRequest.adminComment r /\
    ShiftRequest.approvedBy r' = ShiftRequest.approvedBy r /\
    ShiftRequest.approvedAt r' = ShiftRequest.approvedAt r /\
    ShiftRequest.declinedReason r' = ShiftRequest.declinedReason r /\
    (forall other, other <> rid ->
       findById ShiftRequest._id other (shiftRequests st')
       = findById ShiftRequest._id other (shiftRequests st)).
Proof.
  intros Hrun.
  destruct (clockIn_cases now trainerUserId shiftRequestId st)
    as [(e & He) | (uid & rid & trainer & r & -> & -> & Ht & Hf & Ha & Hs & Hn & Hw & Hok)].
  { rewrite He in Hrun. discriminate Hrun. }
  rewrite Hok in Hrun. injection Hrun as <- <-.
  pose proof (findById_In _ _ _ _ Hf) as [_ Hid].
  exists rid, r, (setLinkedShiftId (nextId st) r).
  split; [reflexivity|]. split; [exact Hf|].
  split.
  { cbn. apply findById_saveDoc_same with (x := r); [exact Hf | exact Hid]. }
  split; [cbn; apply in_or_app; right; now left|].
  split; [exact Hid|].
  split; [reflexivity|]. split; [exact Hs|]. split; [exact Hs|].
  repeat (split; [reflexivity|]).
  intros other Hne. cbn. apply findById_saveDoc_other. cbn. congruence.
Qed.

Lemma clockIn_links_request_witness :
  exists r',
    findById ShiftRequest._id 100 (shiftRequests demoClockedIn) = Some r' /\
    ShiftRequest.linkedShiftId r' = Some 101%nat /\
    ShiftRequest.status r' = APPROVED.
Proof.
  assert (Hrun : clockInShiftAsTrainer 1709284500000 (GoodId 2) (GoodId 100) demoApproved
                 = (inr (clockedInShift 1709284500000 demoRequestApproved
                           (Trainer.mk 20 2 "approved") 101),
                    demoClockedIn))
    by (vm_compute; reflexivity).
  destruct (clockIn_links_request _ _ _ _ _ _ Hrun)
    as (rid & r & r' & Hrid & _ & Hf' & _ & _ & Hl & _ & Hs & _).
  injection Hrid as <-.
  exists r'. split; [exact Hf'|]. split; [exact Hl | exact Hs].
Defined.

(** Every way [clockOutShiftAsTrainer] can end: it throws at a guard with
    the store untouched, or it saves the completed shift and the
    completed request and then runs the aggregator, whose outcome is the
    outcome of the call. *)
Lemma clockOut_cases now trainerUserId shiftRequestId report st :
  (exists e, clockOutShiftAsTrainer now trainerUserId shiftRequestId report st
             = (inl e, st)) \/
  (exists uid rid trainer r sid sh,
     trainerUserId = GoodId uid /\ shiftRequestId = GoodId rid /\
     find (fun x => Nat.eqb (Trainer.userId x) uid) (trainers st) = Some trainer /\
     findById ShiftRequest._id rid (shiftRequests st) = Some r /\
     notAssignedTo r trainer = false /\
     ShiftRequest.linkedShiftId r = Some sid /\
     findById Shift._id sid (shifts st) = Some sh /\
     clockOutShiftAsTrainer now trainerUserId shiftRequestId report st
     = match upsertTimesheetForShift
               (clockOutArgs r report (completeShift now r report sh))
               (afterClockOutSaves now r report sh st) with
       | (inr ts, st') => (inr (completeShift now r report sh, ts), st')
       | (inl e, st') => (inl e, st')
       end).
Proof.
  unfold clockOutShiftAsTrainer.
  destruct trainerUserId as [?|uid]; [left; eexists; reflexivity|].
  destruct shiftRequestId as [?|rid]; [left; eexists; reflexivity|].
  rewrite bind_readonly by auto with readonly.
  destruct (loadTrainerOfUser uid st) as [[e|trainer] st0] eqn:Lt; cbn [fst];
    [left; eexists; reflexivity|].
  apply loadTrainerOfUser_inv in Lt as [-> Lt].
  rewrite bind_readonly by auto with readonly.
  destruct (loadShiftRequest rid st) as [[e|r] st0] eqn:L; cbn [fst];
    [left; eexists; reflexivity|].
  apply loadShiftRequest_inv in L as [-> L].
  rewrite bind_readonly by auto with readonly.
  destruct (notAssignedTo r trainer) eqn:Ha; cbn [throwIf throw ret fst];
    [left; eexists; reflexivity|].
  rewrite bind_readonly by auto with readonly. cbn [gets fst].
  destruct (ShiftRequest.linkedShiftId r) as [sid|] eqn:El;
    [|left; eexists; reflexivity].
  destruct (findById Shift._id sid (shifts st)) as [sh|] eqn:Fs;
    [|left; eexists; reflexivity].
  right. exists uid, rid, trainer, r, sid, sh.
  repeat (split; [first [reflexivity | assumption]|]).
  unfold saveShiftRequest, afterClockOutSaves, clockOutArgs.
  unfold bind, modify, ret. cbn [getPricingSnapshotForShift].
  destruct (upsertTimesheetForShift _ _) as [[e|ts] st'] eqn:U; reflexivity.
Qed.

(* ================================================================== *)
(** * What each operation does to the collections                      *)
(* ================================================================== *)

Lemma decline_cases now requestId adminUserId reason st :
  (exists e, decline now requestId adminUserId reason st = (inl e, st)) \/
  (exists rid aid r,
     requestId = GoodId rid /\ adminUserId = GoodId aid /\
     findById ShiftRequest._id rid (shiftRequests st) = Some r /\
     ShiftRequest.status r = PENDING_ADMIN /\
     decline now requestId adminUserId reason st
     = (inr (declineFields aid now reason r),
        setShiftRequests (saveDoc ShiftRequest._id (declineFields aid now reason r)) st)).
Proof.
  unfold decline.
  destruct requestId as [?|rid]; [left; eexists; reflexivity|].
  rewrite bind_readonly by auto with readonly.
  destruct (loadShiftRequest rid st) as [[e|r] st0] eqn:L; cbn [fst];
    [left; eexists; reflexivity|].
  apply loadShiftRequest_inv in L as [-> L].
  rewrite bind_readonly by auto with readonly.
  destruct (ShiftRequestStatus_beq (ShiftRequest.status r) PENDING_ADMIN) eqn:Es;
    cbn [negb throwIf throw ret fst]; [|left; eexists; reflexivity].
  rewrite bind_readonly by auto with readonly.
  destruct adminUserId as [?|aid]; cbn [newObjectId throw ret fst];
    [left; eexists; reflexivity|].
  right. exists rid, aid, r. repeat (split; [first [reflexivity | assumption]|]).
  split; [destruct (ShiftRequest.status r); try discriminate; reflexivity|].
  unfold saveShiftRequest. svc_unfold. reflexivity.
Qed.

Lemma loadTimesheet_inv id ts st st' :
  loadTimesheet id st = (inr ts, st') -> st' = st /\ In ts (timesheets st).
Proof.
  unfold loadTimesheet. destruct id as [?|o]; [discriminate|]. svc_unfold.
  destruct (findById Timesheet._id o (timesheets st)) eqn:F; intros [= <- <-].
  split; [reflexivity|]. now apply findById_In in F.
Qed.

Lemma readonly_loadTimesheet id : readonly (loadTimesheet id).
Proof.
  unfold loadTimesheet. destruct id; [auto with readonly|].
  apply readonly_bind; [auto with readonly|]. intros [x|]; auto with readonly.
Qed.

Lemma submitTimesheet_effect id u st :
  sheetUpdate st (snd (submitTimesheet id u st)).
Proof.
  unfold submitTimesheet. rewrite bind_readonly by apply readonly_loadTimesheet.
  destruct (loadTimesheet id st) as [[e|ts] st0] eqn:L; cbn [fst snd]; [now left|].
  apply loadTimesheet_inv in L as [-> Hin].
  right. exists ts, (setTimesheetStatus T_SUBMITTED ts).
  split; [exact Hin|]. repeat split.
Qed.

Lemma approveTimesheet_effect id u st :
  sheetUpdate st (snd (approveTimesheet id u st)).
Proof.
  unfold approveTimesheet. rewrite bind_readonly by apply readonly_loadTimesheet.
  destruct (loadTimesheet id st) as [[e|ts] st0] eqn:L; cbn [fst snd]; [now left|].
  apply loadTimesheet_inv in L as [-> Hin].
  rewrite bind_readonly by auto with readonly.
  match goal with |- context [throwIf ?c _] => destruct c end;
    cbn [throwIf throw ret fst snd]; [now left|].
  right. exists ts, (setTimesheetStatus T_APPROVED ts).
  split; [exact Hin|]. repeat split.
Qed.

Lemma reopenTimesheet_effect now id u reason st :
  sheetUpdate st (snd (reopenTimesheet now id u reason st)).
Proof.
  unfold reopenTimesheet. rewrite bind_readonly by apply readonly_loadTimesheet.
  destruct (loadTimesheet id st) as [[e|ts] st0] eqn:L; cbn [fst snd]; [now left|].
  apply loadTimesheet_inv in L as [-> Hin].
  rewrite bind_readonly by auto with readonly.
  match goal with |- context [throwIf ?c _] => destruct c end;
    cbn [throwIf throw ret fst snd]; [now left|].
  right. eexists ts, _. split; [exact Hin|].
  split; [|split; [|reflexivity]]; reflexivity.
Qed.

Lemma sheetUpdate_sheets_inv st st' :
  sheetUpdate st st' -> sheets_inv st -> sheets_inv st'.
Proof.
  unfold sheets_inv.
  intros [-> | (ts & ts' & Hin & Hi & Ht & ->)] Hinv; [exact Hinv|].
  cbn. apply saveDoc_Forall; [|exact Hinv].
  rewrite Forall_forall in Hinv. specialize (Hinv ts Hin).
  destruct Hinv as (Hc & Hn & He). unfold sheet_ok, shiftIds, totals_exact in *.
  rewrite Hi, Ht. auto.
Qed.

(** The store after a service call, for each way it can end. *)
Lemma createShiftRequest_store now p role st :
  snd (createShiftRequest now p role st) = st \/
  exists created,
    snd (createShiftRequest now p role st)
    = mkStore (users st) (trainers st) (participants st)
              (shiftRequests st ++ [created]) (shifts st) (timesheets st)
              (S (nextId st)) /\
    ShiftRequest.linkedShiftId created = None.
Proof.
  destruct (createShiftRequest_cases now p role st)
    as [(e & ->) | (c & -> & _ & _ & _ & Hl)]; [now left|].
  right. exists c. split; [reflexivity | exact Hl].
Qed.

Lemma approveAndAssign_store now rq t a st :
  snd (approveAndAssign now rq t a st) = st \/
  exists r r',
    In r (shiftRequests st) /\
    ShiftRequest.linkedShiftId r' = ShiftRequest.linkedShiftId r /\
    ShiftRequest.start r' = ShiftRequest.start r /\
    ShiftRequest.end_ r' = ShiftRequest.end_ r /\
    snd (approveAndAssign now rq t a st)
    = setShiftRequests (saveDoc ShiftRequest._id r') st.
Proof.
  destruct (approveAndAssign_cases now rq t a st)
    as [(e & ->) | (rid & tid & aid & r & _ & _ & _ & Hf & _ & ->)]; [now left|].
  right. exists r, (approveFields tid aid now r).
  apply findById_In in Hf as [Hin _]. repeat split; assumption.
Qed.

Lemma decline_store now rq a reason st :
  snd (decline now rq a reason st) = st \/
  exists r r',
    In r (shiftRequests st) /\
    ShiftRequest.linkedShiftId r' = ShiftRequest.linkedShiftId r /\
    ShiftRequest.start r' = ShiftRequest.start r /\
    ShiftRequest.end_ r' = ShiftRequest.end_ r /\
    snd (decline now rq a reason st)
    = setShiftRequests (saveDoc ShiftRequest._id r') st.
Proof.
  destruct (decline_cases now rq a reason st)
    as [(e & ->) | (rid & aid & r & _ & _ & Hf & _ & ->)]; [now left|].
  right. exists r, (declineFields aid now reason r).
  apply findById_In in Hf as [Hin _]. repeat split; assumption.
Qed.

(** Every operation keeps the timesheets as the aggregator keeps them. *)
Lemma exec_sheets_inv op st : sheets_inv st -> sheets_inv (exec op st).
Proof.
  intros Hinv. destruct op; cbn [exec].
  - destruct (createShiftRequest_store now payload role st) as [-> | (c & -> & _)];
      exact Hinv.
  - destruct (approveAndAssign_store now requestId trainerId adminUserId st)
      as [-> | (r & r' & _ & _ & _ & _ & ->)]; exact Hinv.
  - destruct (decline_store now requestId adminUserId reason st)
      as [-> | (r & r' & _ & _ & _ & _ & ->)]; exact Hinv.
  - destruct (clockIn_cases now trainerUserId shiftRequestId st)
      as [(e & ->) | (uid & rid & trainer & r & _ & _ & _ & _ & _ & _ & _ & _ & ->)];
      exact Hinv.
  - destruct (clockOut_cases now trainerUserId shiftRequestId report st)
      as [(e & ->) | (uid & rid & trainer & r & sid & sh & _ & _ & _ & _ & _ & _ & _ & ->)];
      [exact Hinv|].
    pose proof (upsert_sheets_ok
                  (clockOutArgs r report (completeShift now r report sh))
                  (afterClockOutSaves now r report sh st) Hinv) as [H _].
    destruct (upsertTimesheetForShift _ _) as [[e|ts] st']; exact H.
  - exact (proj1 (upsert_sheets_ok a st Hinv)).
  - eapply sheetUpdate_sheets_inv; [apply submitTimesheet_effect | exact Hinv].
  - eapply sheetUpdate_sheets_inv; [apply approveTimesheet_effect | exact Hinv].
  - eapply sheetUpdate_sheets_inv; [apply reopenTimesheet_effect | exact Hinv].
Qed.

Lemma execAll_sheets_inv ops st : sheets_inv st -> sheets_inv (execAll ops st).
Proof.
  unfold execAll. revert st. induction ops as [|op ops IH]; intros st H; cbn [fold_left].
  - exact H.
  - apply IH. now apply exec_sheets_inv.
Qed.

(* ================================================================== *)
(** * Totals and lines of the timesheets in every reachable store      *)
(* ================================================================== *)

Lemma freshStore_sheets_inv us trs ps n : sheets_inv (freshStore us trs ps n).
Proof. constructor. Qed.

(** C1. Whatever operations ran on a database that started without
    timesheets, among them any number of upserts for new or for already
    listed shifts, a further [upsertTimesheetForShift] leaves every
    stored timesheet, and the one it returns, with totals that are the
    sums over the items: totalCents, hours, km, amountCents and
    mileageCents. *)
Theorem upsert_totals_exact (us : list User.t) (trs : list Trainer.t)
  (ps : list Participant.t) (n : ObjectId) (ops : list Op) (a : UpsertArgs.t) :
  let st := execAll ops (freshStore us trs ps n) in
  Forall totals_exact (timesheets (snd (upsertTimesheetForShift a st))) /\
  (forall ts, fst (upsertTimesheetForShift a st) = inr ts ->
     totals_exact ts /\
     In ts (timesheets (snd (upsertTimesheetForShift a st)))).
Proof.
  intros st.
  assert (Hinv : sheets_inv st)
    by (apply execAll_sheets_inv, freshStore_sheets_inv).
  pose proof (upsert_sheets_ok a st Hinv) as [Hall Hret].
  split.
  - eapply Forall_impl; [|exact Hall]. intros ts (_ & _ & H). exact H.
  - intros ts Hts. destruct (Hret ts Hts) as [(_ & _ & H) Hin]. split; assumption.
Qed.

Lemma linesOf_In k ts : linesOf k ts = 1%nat -> In k (shiftIds ts).
Proof.
  unfold linesOf. intros H. apply (count_occ_In Nat.eq_dec). lia.
Qed.

Lemma applyUpsert_keys_in ts a we :
  In (UpsertArgs.shiftId a) (shiftIds ts) ->
  shiftIds (applyUpsert ts a we) = shiftIds ts.
Proof.
  intros H. rewrite shiftIds_applyUpsert. now apply placeRec_keys_in.
Qed.

Lemma applyUpsert_keys_notin ts a we :
  ~ In (UpsertArgs.shiftId a) (shiftIds ts) ->
  shiftIds (applyUpsert ts a we) = shiftIds ts ++ [UpsertArgs.shiftId a].
Proof.
  intros H. rewrite shiftIds_applyUpsert.
  rewrite placeRec_keys_notin by exact H.
  unfold shiftIds. now rewrite map_app.
Qed.



(** The lines of a stored timesheet have distinct shift ids, and the
    timesheet that an upsert returns has exactly one line for its
    shift. *)
Lemma upsert_one_line us trs ps n ops a ts :
  let st := execAll ops (freshStore us trs ps n) in
  fst (upsertTimesheetForShift a st) = inr ts ->
  linesOf (UpsertArgs.shiftId a) ts = 1%nat.
Proof.
  intros st Hts.
  assert (Hinv : sheets_inv st)
    by (apply execAll_sheets_inv, freshStore_sheets_inv).
  destruct (upsertTimesheetForShift_spec a st)
    as [(e & He & _) | (ws & we & ts0 & st0 & st' & _ & _ & _ & Hu & _ & _ & _ & Hin & Hcase)].
  { rewrite He in Hts. discriminate Hts. }
  rewrite Hu in Hts. injection Hts as <-.
  assert (Hn : NoDup (shiftIds ts0)).
  { destruct Hcase as [-> | [-> _]].
    - unfold sheets_inv in Hinv. rewrite Forall_forall in Hinv.
      now destruct (Hinv ts0 Hin) as (_ & Hn & _).
    - constructor. }
  unfold linesOf.
  assert (Hn' : NoDup (shiftIds (applyUpsert ts0 a we))).
  { rewrite shiftIds_applyUpsert. now apply placeRec_NoDup. }
  assert (Hin' : In (UpsertArgs.shiftId a) (shiftIds (applyUpsert ts0 a we))).
  { rewrite shiftIds_applyUpsert.
    change (UpsertArgs.shiftId a) with (Item.shiftId (buildItem a)).
    apply in_map, placeRec_In. }
  apply NoDup_count_occ' with (decA := Nat.eq_dec) in Hin'; assumption.
Qed.

(* ================================================================== *)
(** * At most one shift in progress per request                        *)
(* ================================================================== *)

Lemma upsert_sameCore a st :
  sameCore st (snd (upsertTimesheetForShift a st)) /\
  (nextId st <= nextId (snd (upsertTimesheetForShift a st)))%nat.
Proof.
  destruct (upsertTimesheetForShift_spec a st)
    as [(e & -> & _) | (ws & we & ts0 & st0 & st' & _ & _ & _ & -> & Hc & Hn & _)].
  - cbn. split; [repeat split | lia].
  - cbn. split; assumption.
Qed.

Lemma filter_saveDoc_le {A} (idOf : A -> ObjectId) (p : A -> bool) d l :
  p d = false ->
  (List.length (filter p (saveDoc idOf d l)) <= List.length (filter p l))%nat.
Proof.
  intros Hd. induction l as [|x l IH]; cbn [saveDoc filter]; [lia|].
  destruct (Nat.eqb (idOf x) (idOf d)); cbn [filter].
  - rewrite Hd. destruct (p x); cbn [List.length]; lia.
  - destruct (p x); cbn [List.length]; lia.
Qed.

Lemma activeShiftsOf_nil rid st :
  ~ hasActiveShift rid st -> activeShiftsOf rid st = [].
Proof.
  intros H. unfold activeShiftsOf.
  destruct (filter _ (shifts st)) as [|x l] eqn:F; [reflexivity|].
  exfalso. apply H.
  assert (Hin : In x (filter (fun sh => Nat.eqb (Shift.shiftRequestId sh) rid
                        && ShiftStatus_beq (Shift.status sh) S_IN_PROGRESS) (shifts st)))
    by (rewrite F; now left).
  apply filter_In in Hin as [Hin Hp]. apply andb_prop in Hp as [H1 H2].
  exists x. split; [exact Hin|]. split; [now apply Nat.eqb_eq|].
  destruct (Shift.status x); try discriminate; reflexivity.
Qed.

(** How an operation changes the shifts: not at all, by adding a shift in
    progress for a request that has none, or by saving a completed
    shift. *)
Lemma exec_shifts op st :
  shifts (exec op st) = shifts st \/
  (exists sh, shifts (exec op st) = shifts st ++ [sh] /\
              ~ hasActiveShift (Shift.shiftRequestId sh) st) \/
  (exists sh, shifts (exec op st) = saveDoc Shift._id sh (shifts st) /\
              Shift.status sh = S_COMPLETED).
Proof.
  destruct op; cbn [exec].
  - destruct (createShiftRequest_store now payload role st) as [-> | (c & -> & _)];
      now left.
  - destruct (approveAndAssign_store now requestId trainerId adminUserId st)
      as [-> | (r & r' & _ & _ & _ & _ & ->)]; now left.
  - destruct (decline_store now requestId adminUserId reason st)
      as [-> | (r & r' & _ & _ & _ & _ & ->)]; now left.
  - destruct (clockIn_cases now trainerUserId shiftRequestId st)
      as [(e & ->) | (uid & rid & trainer & r & _ & _ & _ & Hf & _ & _ & Hn & _ & ->)];
      [now left|].
    right; left. eexists. split; [reflexivity|]. cbn.
    apply findById_In in Hf as [_ ->]. exact Hn.
  - destruct (clockOut_cases now trainerUserId shiftRequestId report st)
      as [(e & ->) | (uid & rid & trainer & r & sid & sh & _ & _ & _ & _ & _ & _ & _ & ->)];
      [now left|].
    right; right. exists (completeShift now r report sh).
    split; [|reflexivity].
    pose proof (upsert_sameCore
                  (clockOutArgs r report (completeShift now r report sh))
                  (afterClockOutSaves now r report sh st)) as [(_ & _ & _ & _ & Hs) _].
    destruct (upsertTimesheetForShift _ _) as [[e|ts] st']; exact Hs.
  - left. exact (proj2 (proj2 (proj2 (proj2 (proj1 (upsert_sameCore a st)))))).
  - destruct (submitTimesheet_effect id trainerUserId st)
      as [-> | (ts & ts' & _ & _ & _ & ->)]; now left.
  - destruct (approveTimesheet_effect id adminUserId st)
      as [-> | (ts & ts' & _ & _ & _ & ->)]; now left.
  - destruct (reopenTimesheet_effect now id adminUserId reason st)
      as [-> | (ts & ts' & _ & _ & _ & ->)]; now left.
Qed.

Lemma exec_oneActive op st : oneActive st -> oneActive (exec op st).
Proof.
  intros Hinv rid. unfold activeShiftsOf.
  destruct (exec_shifts op st) as [-> | [(sh & -> & Hn) | (sh & -> & Hc)]].
  - apply Hinv.
  - rewrite filter_app, length_app. cbn [filter].
    destruct (Nat.eqb_spec (Shift.shiftRequestId sh) rid) as [E|E]; cbn [andb].
    + subst rid. apply activeShiftsOf_nil in Hn. unfold activeShiftsOf in Hn.
      rewrite Hn. destruct (ShiftStatus_beq _ _); cbn; lia.
    + cbn [List.length]. specialize (Hinv rid). unfold activeShiftsOf in Hinv. lia.
  - etransitivity; [apply filter_saveDoc_le | apply Hinv].
    rewrite Hc. apply andb_false_r.
Qed.

Lemma execAll_oneActive ops st : oneActive st -> oneActive (execAll ops st).
Proof.
  unfold execAll. revert st. induction ops as [|op ops IH]; intros st H; cbn [fold_left].
  - exact H.
  - apply IH. now apply exec_oneActive.
Qed.

Lemma clockIn_active_409 now uid rid trainer r st :
  find (fun x => Nat.eqb (Trainer.userId x) uid) (trainers st) = Some trainer ->
  findById ShiftRequest._id rid (shiftRequests st) = Some r ->
  notAssignedTo r trainer = false ->
  hasActiveShift rid st ->
  clockInShiftAsTrainer now (GoodId uid) (GoodId rid) st
  = (inl (AppError (if ShiftRequestStatus_beq (ShiftRequest.status r) APPROVED
                    then "This shift is already in progress"
                    else "Only approved shift requests can be started") 409), st).
Proof.
  intros Ht Hf Ha Hact. unfold clockInShiftAsTrainer.
  rewrite (bind_inr _ _ _ _ _ (loadTrainerOfUser_found _ _ _ Ht)).
  rewrite (bind_inr _ _ _ _ _ (loadShiftRequest_found _ _ _ Hf)).
  rewrite Ha. rewrite (bind_inr _ _ _ _ _ (throwIf_false _ _)).
  destruct (ShiftRequestStatus_beq (ShiftRequest.status r) APPROVED);
    cbn [negb]; [|reflexivity].
  rewrite (bind_inr _ _ _ _ _ (throwIf_false _ _)).
  pose proof (findById_In _ _ _ _ Hf) as [_ Hid].
  apply find_active_iff in Hact as [x Hx].
  unfold bind at 1. unfold gets. rewrite Hid, Hx. reflexivity.
Qed.

(** C7. While a shift of a request is IN_PROGRESS, a clock-in for that
    request throws and leaves the store as it was, so no second shift is
    created; for the assigned trainer the error is a 409.  In
    particular, a clock-in that returned is followed by a 409 when the
    same call is made again.  Every operation keeps at most one shift
    IN_PROGRESS per request, and so it is in every store reached from a
    database without shifts. *)
Theorem clockIn_at_most_one_active :
  (forall now u rid st,
     hasActiveShift rid st ->
     (exists e, clockInShiftAsTrainer now u (GoodId rid) st = (inl e, st)) /\
     (forall uid trainer r,
        u = GoodId uid ->
        find (fun x => Nat.eqb (Trainer.userId x) uid) (trainers st) = Some trainer ->
        findById ShiftRequest._id rid (shiftRequests st) = Some r ->
        notAssignedTo r trainer = false ->
        failsWith (clockInShiftAsTrainer now u (GoodId rid) st) 409)) /\
  (forall now u rq st shift st',
     clockInShiftAsTrainer now u rq st = (inr shift, st') ->
     forall now2,
       clockInShiftAsTrainer now2 u rq st'
       = (inl (AppError "This shift is already in progress" 409), st')) /\
  (forall op st, oneActive st -> oneActive (exec op st)) /\
  (forall us trs ps n ops, oneActive (execAll ops (freshStore us trs ps n))).
Proof.
  split; [|split; [|split]].
  - intros now u rid st Hact. split.
    + destruct (clockIn_cases now u (GoodId rid) st)
        as [(e & He) | (uid & rid' & trainer & r & _ & Hr & _ & _ & _ & _ & Hn & _)].
      * exists e. exact He.
      * injection Hr as <-. contradiction.
    + intros uid trainer r -> Ht Hf Ha.
      eexists. rewrite (clockIn_active_409 now uid rid trainer r st Ht Hf Ha Hact).
      reflexivity.
  - intros now u rq st shift st' Hrun now2.
    destruct (clockIn_cases now u rq st)
      as [(e & He) | (uid & rid & trainer & r & -> & -> & Ht & Hf & Ha & Hs & Hn & Hw & Hok)].
    { rewrite He in Hrun. discriminate Hrun. }
    rewrite Hok in Hrun. injection Hrun as <- <-.
    pose proof (findById_In _ _ _ _ Hf) as [_ Hid].
    assert (Hf' : findById ShiftRequest._id rid
                    (shiftRequests (afterClockIn now r trainer st))
                  = Some (setLinkedShiftId (nextId st) r)).
    { cbn. apply findById_saveDoc_same with (x := r); [exact Hf | exact Hid]. }
    assert (Hact : hasActiveShift rid (afterClockIn now r trainer st)).
    { exists (clockedInShift now r trainer (nextId st)).
      split; [cbn; apply in_or_app; right; now left|].
      split; [exact Hid | reflexivity]. }
    rewrite (clockIn_active_409 now2 uid rid trainer (setLinkedShiftId (nextId st) r)
               (afterClockIn now r trainer st) Ht Hf' Ha Hact).
    cbn [setLinkedShiftId ShiftRequest.status]. rewrite Hs. reflexivity.
  - exact exec_oneActive.
  - intros us trs ps n ops. apply execAll_oneActive. intros rid. cbn. lia.
Qed.

Lemma clockIn_at_most_one_active_witness :
  clockInShiftAsTrainer 1709284600000 (GoodId 2) (GoodId 100) demoClockedIn
  = (inl (AppError "This shift is already in progress" 409), demoClockedIn) /\
  oneActive demoClockedIn.
Proof.
  destruct clockIn_at_most_one_active as (_ & Hagain & _ & Hreach).
  split.
  - apply (Hagain 1709284500000 (GoodId 2) (GoodId 100) demoApproved
             (clockedInShift 1709284500000 demoRequestApproved
                (Trainer.mk 20 2 "approved") 101) demoClockedIn).
    vm_compute. reflexivity.
  - exact (Hreach (users demoStore) (trainers demoStore) (participants demoStore)
             100%nat
             [OpCreate 1709200000000 demoPayload (Some PARTICIPANT);
              OpApproveAndAssign 1709210000000 (GoodId 100) (GoodId 20) (GoodId 3);
              OpClockIn 1709284500000 (GoodId 2) (GoodId 100)]).
Defined.

(* ================================================================== *)
(** * A linked shift carries the window of its request                 *)
(* ================================================================== *)

Lemma ids_fresh_mono st st' :
  shifts st' = shifts st -> shiftRequests st' = shiftRequests st ->
  (nextId st <= nextId st')%nat ->
  ids_fresh st -> ids_fresh st'.
Proof.
  intros Hs Hr Hn [H1 H2]. unfold ids_fresh. rewrite Hs, Hr. split.
  - eapply Forall_impl; [|exact H1]. cbn. intros; lia.
  - eapply Forall_impl; [|exact H2]. cbn.
    intros r. destruct (ShiftRequest.linkedShiftId r); [lia | auto].
Qed.

Lemma link_ok_same st st' :
  shifts st' = shifts st -> shiftRequests st' = shiftRequests st ->
  link_ok st -> link_ok st'.
Proof. intros Hs Hr H. unfold link_ok. rewrite Hs, Hr. exact H. Qed.

Lemma link_inv_request_saved st r r' :
  In r (shiftRequests st) ->
  ShiftRequest.linkedShiftId r' = ShiftRequest.linkedShiftId r ->
  ShiftRequest.start r' = ShiftRequest.start r ->
  ShiftRequest.end_ r' = ShiftRequest.end_ r ->
  ids_fresh st /\ link_ok st ->
  ids_fresh (setShiftRequests (saveDoc ShiftRequest._id r') st) /\
  link_ok (setShiftRequests (saveDoc ShiftRequest._id r') st).
Proof.
  intros Hin Hl Hs He [[F1 F2] L]. split; [split|].
  - exact F1.
  - cbn. apply saveDoc_Forall; [|exact F2]. rewrite Hl.
    rewrite Forall_forall in F2. exact (F2 r Hin).
  - intros x sid sh Hx Hxl Hsh. cbn [shifts shiftRequests setShifts setShiftRequests snd afterClockIn] in Hx, Hsh.
    apply saveDoc_In_inv in Hx as [-> | Hx].
    + rewrite Hs, He. apply (L r sid sh Hin); [congruence | exact Hsh].
    + exact (L x sid sh Hx Hxl Hsh).
Qed.

Lemma link_inv_shift_saved st sid sh sh' :
  findById Shift._id sid (shifts st) = Some sh ->
  Shift._id sh' = Shift._id sh ->
  Shift.scheduledStart sh' = Shift.scheduledStart sh ->
  Shift.scheduledEnd sh' = Shift.scheduledEnd sh ->
  ids_fresh st /\ link_ok st ->
  ids_fresh (setShifts (saveDoc Shift._id sh') st) /\
  link_ok (setShifts (saveDoc Shift._id sh') st).
Proof.
  intros Hf Hid Hs He [[F1 F2] L].
  pose proof (findById_In _ _ _ _ Hf) as [Hin Hsid].
  split; [split|].
  - cbn. apply saveDoc_Forall; [|exact F1]. rewrite Hid.
    rewrite Forall_forall in F1. exact (F1 sh Hin).
  - exact F2.
  - intros x k s Hx Hxl Hk. cbn [shifts shiftRequests setShifts setShiftRequests] in Hx, Hk.
    destruct (Nat.eq_dec (Shift._id sh') k) as [E|E].
    + assert (Hk0 : findById Shift._id k (shifts st) = Some sh) by congruence.
      rewrite (findById_saveDoc_same _ _ _ _ _ Hk0 E) in Hk. injection Hk as <-.
      rewrite Hs, He. exact (L x k sh Hx Hxl Hk0).
    + rewrite findById_saveDoc_other in Hk by exact E.
      exact (L x k s Hx Hxl Hk).
Qed.

Lemma exec_link_inv op st :
  ids_fresh st /\ link_ok st -> ids_fresh (exec op st) /\ link_ok (exec op st).
Proof.
  intros Hinv. destruct op; cbn [exec].
  - destruct (createShiftRequest_store now payload role st) as [-> | (c & -> & Hl)];
      [exact Hinv|].
    destruct Hinv as [[F1 F2] L]. split; [split|]; cbn.
    + eapply Forall_impl; [|exact F1]. cbn. intros; lia.
    + apply Forall_app. split.
      * eapply Forall_impl; [|exact F2]. cbn.
        intros r. destruct (ShiftRequest.linkedShiftId r); [lia | auto].
      * constructor; [now rewrite Hl | constructor].
    + intros x sid sh Hx Hxl Hsh. cbn [shifts shiftRequests setShifts setShiftRequests snd afterClockIn] in Hx, Hsh.
      apply in_app_or in Hx as [Hx | [<- | []]]; [|congruence].
      exact (L x sid sh Hx Hxl Hsh).
  - destruct (approveAndAssign_store now requestId trainerId adminUserId st)
      as [-> | (r & r' & Hin & Hl & Hs & He & ->)]; [exact Hinv|].
    now apply link_inv_request_saved with (r := r).
  - destruct (decline_store now requestId adminUserId reason st)
      as [-> | (r & r' & Hin & Hl & Hs & He & ->)]; [exact Hinv|].
    now apply link_inv_request_saved with (r := r).
  - destruct (clockIn_cases now trainerUserId shiftRequestId st)
      as [(e & ->) | (uid & rid & trainer & r & _ & _ & _ & Hf & _ & _ & _ & _ & ->)];
      [exact Hinv|].
    destruct Hinv as [[F1 F2] L].
    pose proof (findById_In _ _ _ _ Hf) as [Hin Hid].
    cbn [snd]. split; [split|]; cbn.
    + apply Forall_app. split.
      * eapply Forall_impl; [|exact F1]. cbn. intros; lia.
      * constructor; [cbn; lia | constructor].
    + apply saveDoc_Forall; [cbn; lia|].
      eapply Forall_impl; [|exact F2]. cbn.
      intros x. destruct (ShiftRequest.linkedShiftId x); [lia | auto].
    + intros x sid sh Hx Hxl Hsh. cbn [shifts shiftRequests setShifts setShiftRequests snd afterClockIn] in Hx, Hsh.
      apply saveDoc_In_inv in Hx as [-> | Hx].
      * cbn in Hxl. injection Hxl as <-.
        rewrite findById_app_none in Hsh
          by (apply findById_fresh with (n := nextId st); [exact F1 | lia]).
        unfold findById in Hsh. cbn in Hsh. rewrite Nat.eqb_refl in Hsh.
        injection Hsh as <-. split; reflexivity.
      * destruct (findById Shift._id sid (shifts st)) as [s0|] eqn:F0.
        -- rewrite (findById_app_some _ _ _ _ _ F0) in Hsh. injection Hsh as <-.
           exact (L x sid s0 Hx Hxl F0).
        -- rewrite findById_app_none in Hsh by exact F0.
           rewrite Forall_forall in F2. specialize (F2 x Hx). rewrite Hxl in F2.
           unfold findById in Hsh. cbn in Hsh.
           destruct (Nat.eqb_spec (nextId st) sid); [lia | discriminate].
  - destruct (clockOut_cases now trainerUserId shiftRequestId report st)
      as [(e & ->) | (uid & rid & trainer & r & sid & sh & _ & _ & _ & Hf & _ & Hl & Hs & ->)];
      [exact Hinv|].
    pose proof (findById_In _ _ _ _ Hf) as [Hin _].
    assert (H2 : ids_fresh (afterClockOutSaves now r report sh st) /\
                 link_ok (afterClockOutSaves now r report sh st)).
    { unfold afterClockOutSaves.
      apply link_inv_request_saved with (r := r); try reflexivity; [exact Hin|].
      apply link_inv_shift_saved with (sid := sid) (sh := sh); try reflexivity;
        assumption. }
    pose proof (upsert_sameCore
                  (clockOutArgs r report (completeShift now r report sh))
                  (afterClockOutSaves now r report sh st))
      as [(_ & _ & _ & Hr' & Hs') Hn'].
    destruct (upsertTimesheetForShift _ _) as [[e|ts] st']; cbn [snd] in *;
      (split; [eapply ids_fresh_mono; [exact Hs' | exact Hr' | exact Hn' | apply H2]
              | eapply link_ok_same; [exact Hs' | exact Hr' | apply H2]]).
  - pose proof (upsert_sameCore a st) as [(_ & _ & _ & Hr' & Hs') Hn'].
    split; [eapply ids_fresh_mono; [exact Hs' | exact Hr' | exact Hn' | apply Hinv]
           | eapply link_ok_same; [exact Hs' | exact Hr' | apply Hinv]].
  - destruct (submitTimesheet_effect id trainerUserId st)
      as [-> | (ts & ts' & _ & _ & _ & ->)]; exact Hinv.
  - destruct (approveTimesheet_effect id adminUserId st)
      as [-> | (ts & ts' & _ & _ & _ & ->)]; exact Hinv.
  - destruct (reopenTimesheet_effect now id adminUserId reason st)
      as [-> | (ts & ts' & _ & _ & _ & ->)]; exact Hinv.
Qed.

Lemma execAll_link_inv ops st :
  ids_fresh st /\ link_ok st ->
  ids_fresh (execAll ops st) /\ link_ok (execAll ops st).
Proof.
  unfold execAll. revert st. induction ops as [|op ops IH]; intros st H; cbn [fold_left].
  - exact H.
  - apply IH. now apply exec_link_inv.
Qed.

Lemma freshStore_link_inv us trs ps n :
  ids_fresh (freshStore us trs ps n) /\ link_ok (freshStore us trs ps n).
Proof.
  split; [split; constructor|]. intros r sid sh [].
Qed.

(* ================================================================== *)
(** * Clock-out: audit time and billing                                *)
(* ================================================================== *)

Lemma Math_round_minutes d :
  Math_round (inject_Z d / inject_Z 60000) = (d + 30000) / 60000.
Proof.
  unfold Math_round, Qfloor, Qplus, Qdiv, Qmult, Qinv, inject_Z. cbn.
  Z.div_mod_to_equations. lia.
Qed.

Lemma minutesBetween_eq a b :
  minutesBetween a b = Z.max 0 ((b - a + 30000) / 60000).
Proof. unfold minutesBetween. now rewrite Math_round_minutes. Qed.

(** Billable minutes are the length of the window to the nearest
    minute, and exactly its length when it is a whole number of
    minutes. *)
Lemma minutesBetween_nearest a b :
  a <= b ->
  Z.abs (msPerMinute * minutesBetween a b - (b - a)) <= 30000.
Proof.
  intros H. rewrite minutesBetween_eq. unfold msPerMinute.
  Z.div_mod_to_equations. lia.
Qed.

Lemma minutesBetween_whole a b m :
  0 <= m -> b - a = m * msPerMinute -> minutesBetween a b = m.
Proof.
  intros H E. rewrite minutesBetween_eq, E. unfold msPerMinute.
  Z.div_mod_to_equations. lia.
Qed.

(** A clock-out that passes the guards saves the shift and the request
    and then runs the aggregator. *)
Lemma clockOut_run now uid rid trainer r sid sh report st :
  find (fun x => Nat.eqb (Trainer.userId x) uid) (trainers st) = Some trainer ->
  findById ShiftRequest._id rid (shiftRequests st) = Some r ->
  notAssignedTo r trainer = false ->
  ShiftRequest.linkedShiftId r = Some sid ->
  findById Shift._id sid (shifts st) = Some sh ->
  clockOutShiftAsTrainer now (GoodId uid) (GoodId rid) report st
  = match upsertTimesheetForShift
            (clockOutArgs r report (completeShift now r report sh))
            (afterClockOutSaves now r report sh st) with
    | (inr ts, st') => (inr (completeShift now r report sh, ts), st')
    | (inl e, st') => (inl e, st')
    end.
Proof.
  intros Ht Hf Ha Hl Hs. unfold clockOutShiftAsTrainer.
  rewrite (bind_inr _ _ _ _ _ (loadTrainerOfUser_found _ _ _ Ht)).
  rewrite (bind_inr _ _ _ _ _ (loadShiftRequest_found _ _ _ Hf)).
  rewrite Ha. rewrite (bind_inr _ _ _ _ _ (throwIf_false _ _)).
  unfold bind at 1. unfold gets. rewrite Hl, Hs.
  unfold saveShiftRequest, afterClockOutSaves, clockOutArgs.
  unfold bind, modify, ret. cbn [getPricingSnapshotForShift].
  destruct (upsertTimesheetForShift _ _) as [[e|ts] st'] eqn:U; reflexivity.
Qed.

Lemma upsert_succeeds a st ws we :
  startOfWeekUTC (Some (UpsertArgs.date a)) = Some ws ->
  endOfWeekUTC (Some ws) = Some we ->
  exists ts st',
    upsertTimesheetForShift a st = (inr ts, st') /\
    sameCore st st' /\
    In (backfillHours (buildItem a)) (Timesheet.items ts) /\
    Timesheet.trainerId ts = UpsertArgs.trainerId a /\
    Timesheet.weekStart ts = ws.
Proof.
  intros Hws Hwe.
  destruct (upsertTimesheetForShift_spec a st)
    as [(e & _ & [H|H]) | (ws' & we' & ts0 & st0 & st' & Hws' & Hwe' & Hf & Hu & Hc & _ & _ & Hin & Hcase)].
  - congruence.
  - rewrite Hws in H. congruence.
  - exists (applyUpsert ts0 a we'), st'. split; [exact Hu|]. split; [exact Hc|].
    split.
    { rewrite items_applyUpsert. apply in_map, placeRec_In. }
    assert (ws' = ws) by congruence. subst ws'.
    destruct Hcase as [-> | [-> _]]; [|split; reflexivity].
    revert Hf. unfold findOrInsertTimesheet. svc_unfold.
    destruct (find _ (timesheets st)) as [t|] eqn:F.
    + intros [= <-]. apply find_some in F as [_ F].
      apply andb_prop in F as [F1 F2].
      apply Nat.eqb_eq in F1. apply Z.eqb_eq in F2. cbn. split; assumption.
    + cbn. intros [= <- _]. split; reflexivity.
Qed.

Lemma completeShift_actualClockOut now r report sh :
  Shift.actualClockOut (completeShift now r report sh)
  = Some (Z.min now (Shift.scheduledEnd sh)).
Proof.
  unfold completeShift. cbn [getPricingSnapshotForShift Shift.actualClockOut].
  destruct (Z.ltb_spec (Shift.scheduledEnd sh) now); f_equal; lia.
Qed.





(* ================================================================== *)
(** * Rounding: billable minutes, minutes between, pages               *)
(* ================================================================== *)

Lemma Math_round_bounds x :
  (inject_Z (Math_round x) <= x + (1 # 2) /\ x + (1 # 2) < inject_Z (Math_round x) + 1)%Q.
Proof.
  unfold Math_round. split.
  - apply Qfloor_le.
  - pose proof (Qlt_floor (x + (1 # 2))) as H.
    rewrite inject_Z_plus in H. exact H.
Qed.

Lemma Math_round_unique x n :
  (inject_Z n <= x + (1 # 2))%Q -> (x + (1 # 2) < inject_Z n + 1)%Q ->
  Math_round x = n.
Proof.
  intros H1 H2. destruct (Math_round_bounds x) as [B1 B2].
  assert (L1 : (inject_Z (Math_round x) < inject_Z (n + 1))%Q)
    by (rewrite inject_Z_plus; change (inject_Z 1) with 1%Q; lra).
  assert (L2 : (inject_Z n < inject_Z (Math_round x + 1))%Q)
    by (rewrite inject_Z_plus; change (inject_Z 1) with 1%Q; lra).
  rewrite <- Zlt_Qlt in L1, L2. lia.
Qed.

Lemma Math_round_mono x y : (x <= y)%Q -> Math_round x <= Math_round y.
Proof.
  intros H. unfold Math_round. apply Qfloor_resp_le. lra.
Qed.

Lemma Math_round_Z n : Math_round (inject_Z n) = n.
Proof. apply Math_round_unique; lra. Qed.

(** X1. [billableMinutes] is at least 60 and a multiple of 15, whatever
    the raw minutes. *)
Theorem billableMinutes_quarter_hours (rawMinutes : Q) :
  60 <= billableMinutes rawMinutes /\ (billableMinutes rawMinutes) mod 15 = 0.
Proof.
  unfold billableMinutes. cbn zeta. split; [lia|].
  destruct (Z.max_spec 60 (Math_round (rawMinutes / inject_Z 15) * 15)) as [[_ ->] | [_ ->]].
  - apply Z.mod_mul. lia.
  - reflexivity.
Qed.

(** X2. From 52.5 raw minutes on, [billableMinutes] is the nearest
    quarter of an hour: it differs from the raw minutes by at most 7.5
    (a tie going up); below, it is 60. *)
Theorem billableMinutes_nearest (rawMinutes : Q) :
  ((105 # 2 <= rawMinutes)%Q ->
   (rawMinutes - (15 # 2) < inject_Z (billableMinutes rawMinutes)
    /\ inject_Z (billableMinutes rawMinutes) <= rawMinutes + (15 # 2))%Q) /\
  ((rawMinutes < 105 # 2)%Q -> billableMinutes rawMinutes = 60).
Proof.
  unfold billableMinutes. cbn zeta.
  destruct (Math_round_bounds (rawMinutes / inject_Z 15)) as [B1 B2].
  set (k := Math_round (rawMinutes / inject_Z 15)) in *.
  assert (E : (rawMinutes / inject_Z 15 == rawMinutes * (1 # 15))%Q)
    by (unfold Qdiv; reflexivity).
  rewrite E in B1, B2.
  split; intros H.
  - assert (Hk : 4 <= k).
    { assert (L : (inject_Z 3 < inject_Z k)%Q)
        by (change (inject_Z 3) with 3%Q; lra).
      rewrite <- Zlt_Qlt in L. lia. }
    rewrite Z.max_r by lia.
    rewrite inject_Z_mult. change (inject_Z 15) with 15%Q. lra.
  - assert (Hk : k <= 3).
    { assert (L : (inject_Z k < inject_Z 4)%Q)
        by (change (inject_Z 4) with 4%Q; lra).
      rewrite <- Zlt_Qlt in L. lia. }
    lia.
Qed.

(** X3. [billableMinutes] is monotone, and applying it to its own result
    changes nothing. *)
Theorem billableMinutes_monotone_idempotent (a b : Q) :
  ((a <= b)%Q -> billableMinutes a <= billableMinutes b) /\
  billableMinutes (inject_Z (billableMinutes a)) = billableMinutes a.
Proof.
  split.
  - intros H. unfold billableMinutes. cbn zeta.
    assert (M : Math_round (a / inject_Z 15) <= Math_round (b / inject_Z 15)).
    { apply Math_round_mono. unfold Qdiv. change (/ inject_Z 15)%Q with (1 # 15)%Q. lra. }
    lia.
  - destruct (billableMinutes_quarter_hours a) as [H60 Hm].
    set (v := billableMinutes a) in *.
    apply Z.mod_divide in Hm; [|lia]. destruct Hm as [m Hm].
    unfold billableMinutes. cbn zeta.
    assert (R : Math_round (inject_Z v / inject_Z 15) = m).
    { apply Math_round_unique; rewrite Hm, inject_Z_mult;
        unfold Qdiv; change (/ inject_Z 15)%Q with (1 # 15)%Q;
        change (inject_Z 15) with 15%Q; lra. }
    rewrite R. lia.
Qed.

Lemma billableMinutes_nearest_witness :
  billableMinutes (inject_Z 100) = 105 /\ billableMinutes (inject_Z 20) = 60.
Proof.
  destruct (billableMinutes_nearest (inject_Z 20)) as [_ Hlow].
  split; [reflexivity|]. apply Hlow. reflexivity.
Defined.

Lemma billableMinutes_monotone_idempotent_witness :
  billableMinutes (inject_Z 70) <= billableMinutes (inject_Z 100).
Proof.
  apply (proj1 (billableMinutes_monotone_idempotent (inject_Z 70) (inject_Z 100))).
  unfold Qle. cbn. lia.
Defined.

(** X4. [minutesBetween] is never negative, is 0 exactly when the
    second date is less than half a minute after the first (or before
    it), and grows with the second date. *)
Theorem minutesBetween_nonneg_zero_mono (a b b' : Z) :
  0 <= minutesBetween a b /\
  (minutesBetween a b = 0 <-> b - a < 30000) /\
  (b <= b' -> minutesBetween a b <= minutesBetween a b').
Proof.
  rewrite !minutesBetween_eq. split; [lia|]. split.
  - split; intros H.
    + assert ((b - a + 30000) / 60000 <= 0) by lia.
      Z.div_mod_to_equations. lia.
    + assert ((b - a + 30000) / 60000 <= 0) by (Z.div_mod_to_equations; lia).
      lia.
  - intros H.
    assert ((b - a + 30000) / 60000 <= (b' - a + 30000) / 60000)
      by (apply Z.div_le_mono; lia).
    lia.
Qed.

Lemma minutesBetween_nonneg_zero_mono_witness :
  minutesBetween 1709283600000 1709287200000 <= minutesBetween 1709283600000 1709290800000.
Proof.
  apply (proj2 (proj2 (minutesBetween_nonneg_zero_mono 1709283600000
                          1709287200000 1709290800000))).
  lia.
Defined.

Lemma Qceiling_div total L :
  0 < L -> Qceiling (inject_Z total / inject_Z L) = - ((- total) / L).
Proof.
  intros HL. destruct L as [|p|p]; try lia.
  unfold Qceiling, Qfloor, Qopp, Qdiv, Qmult, Qinv, inject_Z. cbn.
  rewrite Z.mul_1_r. reflexivity.
Qed.

(** X5. The number of pages is the least number of pages of
    [max(1, limit)] entries that hold [total] entries; a limit of 0 or
    less counts as 1 and never divides by zero. *)
Theorem paginationPages_least (total limit : Z) :
  (paginationPages total limit - 1) * Z.max 1 limit < total
  <= paginationPages total limit * Z.max 1 limit.
Proof.
  unfold paginationPages, Math_ceil.
  rewrite Qceiling_div by lia.
  set (L := Z.max 1 limit). assert (HL : 0 < L) by (unfold L; lia).
  clearbody L.
  pose proof (Z.div_mod (- total) L ltac:(lia)) as Hd.
  pose proof (Z.mod_pos_bound (- total) L HL) as Hm.
  nia.
Qed.

(** X6. Whatever string arrives as sort key, [parseSort] yields a field
    of the allow-list {createdAt, start} and the direction 1 or -1, and
    the parser of [listForAdmin] yields the same pair. *)
Theorem parseSort_allow_list (sort : option string) :
  (fst (parseSort sort) = "start"%string \/ fst (parseSort sort) = "createdAt"%string) /\
  (snd (parseSort sort) = 1 \/ snd (parseSort sort) = -1) /\
  adminSort sort = parseSort sort.
Proof.
  unfold parseSort, adminSort. cbn zeta.
  set (s := match sort with
            | Some EmptyString | None => "createdAt:desc"%string
            | Some x => x
            end).
  destruct (nth_error (splitOn ":" s) 0) as [f|];
    destruct (nth_error (splitOn ":" s) 1) as [d|]; cbn [fst snd].
  all: repeat split.
  all: try (destruct (String.eqb_spec f "start"); [left|right]; reflexivity).
  all: try (destruct (String.eqb d "asc"); [left|right]; reflexivity).
  all: try (right; reflexivity).
  all: try (f_equal; cbn [existsb];
            destruct (String.eqb_spec f "createdAt") as [->|]; [reflexivity|];
            destruct (String.eqb_spec f "start") as [->|]; reflexivity).
Qed.
